(** * AI-Debate-Advisor: the debate orchestration of [main.py] and
      [streamlit_debate.py]

    Three [Debator] roles (Principal, John, Mom) first request research, then
    speak in rotation for [n_round] rounds; the collected messages are handed
    to a [DebateEvaluator] and, in [streamlit_debate.py], to a [DebateAdvisor].

    The two source files declare the same classes.  They differ in the
    instruction sentences of [SpeakAloud.run] and in their entry point
    ([debate] in [main.py], [run_debate] in [streamlit_debate.py]); the
    embedding carries a [SourceFile] tag wherever the texts differ.

    Python [int] is [Z], [str] is [string], a [set] of names is a
    [gset string], a [list] is a [list].  Awaited calls whose code is not
    among the sources (the language model behind [Action._aask], the three
    actions imported from [research_actions]) are oracles of an [External]
    record; every call is appended to a trace, and a call that raises aborts
    the computation. *)

From Stdlib Require Import ZArith Lia Floats Ascii.
From stdpp Require Import base gmap sets list strings pretty.

Open Scope string_scope.
Open Scope list_scope.

(** ** Strings *)

Definition nl : string := String "010"%char EmptyString.

(** [sep.join(parts)] *)
Definition join (sep : string) (parts : list string) : string :=
  String.concat sep parts.

(** A text given line by line, as the triple-quoted templates are. *)
Definition lines (ls : list string) : string := join nl ls.

(** [sub in s] on strings: [sub] starts at some position of [s]. *)
Fixpoint contains (sub s : string) : bool :=
  if String.prefix sub s then true
  else match s with
       | EmptyString => false
       | String _ rest => contains sub rest
       end.

(** [f"{n}"] for an [int]. *)
Definition str_of_int (n : Z) : string := pretty n.

(** ** Messages *)

(** The classes whose name a message or a call is tagged with. *)
Inductive ActionKind :=
  | UserRequirement
  | RequestResearch
  | SpeakAloud
  | EvaluateDebate
  | ProvideAdvice
  | CollectLinks
  | WebBrowseAndSummarize
  | ConductResearch.

#[global] Instance ActionKind_eq_dec : EqDecision ActionKind.
Proof. solve_decision. Defined.

(** [metagpt.schema.Message], with the fields the repository sets or reads.
    A message built without [cause_by] is tagged [UserRequirement]. *)
Record Message := {
  content : string;
  role : string;
  cause_by : ActionKind;
  sent_from : string;
  send_to : gset string
}.

(** ** Effects *)

Inductive exn :=
  | ActionError (a : ActionKind)   (* the call made by action [a] raised *)
  | AttributeError.                (* [response.content] on [None] *)

Inductive Event :=
  | Aask (a : ActionKind) (prompt : string)
  | CollectLinksRun (topic : string) (decomposition_nums url_per_query : Z)
  | WebBrowseRun (urls : list string) (query : string)
  | ConductResearchRun (topic content : string).

#[global] Instance Event_eq_dec : EqDecision Event.
Proof. solve_decision. Defined.

Definition Trace := list Event.

(** The collaborators outside the repository.  Each answer may depend on
    everything that was called before; [None] stands for a raised exception.
    [collect_links] and [web_browse] return dicts, kept as association lists
    in insertion order. *)
Record External := {
  aask : Trace -> ActionKind -> string -> option string;
  collect_links : Trace -> string -> Z -> Z -> option (list (string * list string));
  web_browse : Trace -> list string -> string -> option (list (string * string));
  conduct_research : Trace -> string -> string -> option string
}.

Inductive outcome (A : Type) :=
  | Ok (a : A)
  | Raise (e : exn).
Arguments Ok {A} a.
Arguments Raise {A} e.

(** A computation reads and extends the trace; the trace survives a raise. *)
Definition Eff (A : Type) : Type := Trace -> outcome A * Trace.

#[global] Instance Eff_ret : MRet Eff := λ A a tr, (Ok a, tr).

#[global] Instance Eff_bind : MBind Eff := λ A B f m tr,
  match m tr with
  | (Ok a, tr') => f a tr'
  | (Raise e, tr') => (Raise e, tr')
  end.

Definition raise {A} (e : exn) : Eff A := λ tr, (Raise e, tr).

(** One call to a collaborator: the answer is read off the trace so far, the
    call is logged, and a missing answer raises. *)
Definition call {A} (ev : Event) (owner : ActionKind)
    (answer : Trace -> option A) : Eff A := λ tr,
  match answer tr with
  | Some a => (Ok a, tr ++ [ev])
  | None => (Raise (ActionError owner), tr ++ [ev])
  end.

Definition is_aask_of (a : ActionKind) (ev : Event) : bool :=
  match ev with
  | Aask a' _ => bool_decide (a' = a)
  | _ => false
  end.

Definition is_research_event (ev : Event) : bool :=
  match ev with
  | Aask _ _ => false
  | _ => true
  end.

(** How often action [a] asked the language model. *)
Definition aask_count (a : ActionKind) (tr : Trace) : nat :=
  length (List.filter (is_aask_of a) tr).

(** The prompts with which action [a] asked the language model, in order. *)
Definition prompts_of (a : ActionKind) (tr : Trace) : list string :=
  omap (λ ev, match ev with
              | Aask a' p => if bool_decide (a' = a) then Some p else None
              | _ => None
              end) tr.

(** ** Actions *)

Inductive SourceFile := main_py | streamlit_debate_py.

(** The sentence [SpeakAloud.run] puts under [## YOUR TURN] while
    [round_num <= 3]. *)
Definition opening_instruction (src : SourceFile) (profile : string)
    (round_num : Z) : string :=
  match src with
  | main_py =>
      "This is round "
      +:+ str_of_int round_num
      +:+ " of 3 opening rounds. You should ONLY state your view on the topic, give your arguments and how you logically and rigorously arrived at your views. Do NOT rebut or respond to any of your opponents' arguments yet. Your viewpoint should be clear, concise, and extremely stereotypical of a "
      +:+ profile
      +:+ ". MANDATORY: Use specific facts, statistics, and evidence from your research information to support your arguments. Include proper citations in your response using [Source: URL or description] format."
  | streamlit_debate_py =>
      "This is round "
      +:+ str_of_int round_num
      +:+ " of 3 opening rounds. You should ONLY state your view on the topic, give your arguments and how you logically and rigorously arrived at your views. Do NOT rebut or respond to any of your opponents' arguments. Your viewpoint should be clear, concise, and stereotypical of a "
      +:+ profile
      +:+ ". MANDATORY: Use specific facts, statistics, and evidence from your research information to support your arguments. Include proper citations in your response using [Source: URL or description] format."
  end.

(** The sentence of the [else] branch. *)
Definition rebuttal_instruction (src : SourceFile) (name : string)
    (round_num : Z) : string :=
  match src with
  | main_py =>
      "This is round "
      +:+ str_of_int round_num
      +:+ ". You should defend your arguments, and attack and directly rebut your opponents' arguments if they differ from yours. Craft a strong, logically rigorous response in "
      +:+ name
      +:+ "'s rhetoric and viewpoints. MANDATORY: Support your arguments with specific evidence from your research and include citations using [Source: URL or description] format."
  | streamlit_debate_py =>
      "This is round "
      +:+ str_of_int round_num
      +:+ ". You should first restate your view, then closely respond to your opponents' latest arguments, defend your arguments, and attack your opponents' arguments if they differ from yours. Craft a strong, logically rigorous response in "
      +:+ name
      +:+ "'s rhetoric and viewpoints. MANDATORY: Support your arguments with specific evidence from your research and include citations using [Source: URL or description] format."
  end.

(** [instruction] of [SpeakAloud.run]. *)
Definition SpeakAloud_instruction (src : SourceFile) (name profile : string)
    (round_num : Z) : string :=
  if (round_num <=? 3)%Z
  then opening_instruction src profile round_num
  else rebuttal_instruction src name round_num.

(** [SpeakAloud.PROMPT_TEMPLATE.format(...)] *)
Definition SpeakAloud_prompt (context name opponent_name1 opponent_name2 idea
    instruction research_info : string) : string :=
  lines [ "";
          "    ## BACKGROUND";
          "    Suppose you are " +:+ name +:+ ", you are in a debate with "
            +:+ opponent_name1 +:+ " and " +:+ opponent_name2
            +:+ ". You are debating the topic:";
          "    " +:+ idea;
          "    ## DEBATE HISTORY";
          "    Previous rounds:";
          "    " +:+ context;
          "    ## RESEARCH INFORMATION";
          "    " +:+ research_info;
          "    ## YOUR TURN";
          "    " +:+ instruction;
          "    " ].

(** [RequestResearch.PROMPT_TEMPLATE.format(...)] *)
Definition RequestResearch_prompt (name profile topic : string) : string :=
  lines [ "";
          "    ## BACKGROUND";
          "    You are " +:+ name +:+ ", a " +:+ profile
            +:+ " preparing for a debate on: " +:+ topic;
          "    ";
          "    ## TASK";
          "    What specific aspect of this topic would you like to research to strengthen your position?";
          "    Provide ONE specific research query (1-2 sentences) that would help you in this debate.";
          "    Focus on facts, statistics, examples, or evidence that would support your "
            +:+ profile +:+ " perspective.";
          "    " ].

(** [EvaluateDebate.PROMPT_TEMPLATE.format(...)] *)
Definition EvaluateDebate_prompt (topic debate_content : string) : string :=
  lines [ "";
          "    ## ROLE";
          "    You are a neutral evaluator analyzing a debate to provide clear, actionable recommendations.";
          "";
          "    ## DEBATE TOPIC";
          "    " +:+ topic;
          "";
          "    ## DEBATE CONTENT";
          "    " +:+ debate_content;
          "";
          "    ## TASK";
          "    Write a concise evaluation (200-300 words) that:";
          "    1. Summarizes key arguments from all participants";
          "    2. Identifies core trade-offs and considerations";
          "    3. Provides balanced, practical recommendations for decision-makers";
          "    4. Focuses on actionable solutions";
          "";
          "    Your response should be structured and help stakeholders make informed decisions.";
          "    " ].

(** [ProvideAdvice.PROMPT_TEMPLATE.format(...)] *)
Definition ProvideAdvice_prompt (topic evaluation : string) : string :=
  lines [ "";
          "    ## ROLE";
          "    You are a neutral advisor analyzing a debate to provide compromise solutions.";
          "";
          "    ## DEBATE TOPIC";
          "    " +:+ topic;
          "";
          "    ## EVALUATION";
          "    " +:+ evaluation;
          "";
          "    ## TASK";
          "    Based on the evaluation, provide 3 compromise solutions that balance all perspectives.";
          "    For each solution:";
          "    1. **Solution**: Brief description";
          "    2. **Benefits**: How it addresses each party's concerns";
          "    3. **Consequences**: Potential negative outcomes for each party";
          "    4. **Implementation**: Practical steps";
          "";
          "    Focus on realistic compromises that all parties could accept.";
          "    " ].

(** ** Roles *)

(** The part of [Role.rc] the debate touches. *)
Record RoleContext := {
  memory : list Message;
  msg_buffer : list Message;
  news : list Message;
  watch : list ActionKind
}.

Record Debator := {
  name : string;
  profile : string;
  opponent_name1 : string;
  opponent_name2 : string;
  research_info : string;
  research_count : Z;
  max_research : Z;
  rc : RoleContext
}.

Definition with_rc (d : Debator) (c : RoleContext) : Debator :=
  {| name := name d; profile := profile d;
     opponent_name1 := opponent_name1 d; opponent_name2 := opponent_name2 d;
     research_info := research_info d; research_count := research_count d;
     max_research := max_research d; rc := c |}.

(** The two assignments that end [request_research]. *)
Definition with_research (d : Debator) (info : string) (count : Z) : Debator :=
  {| name := name d; profile := profile d;
     opponent_name1 := opponent_name1 d; opponent_name2 := opponent_name2 d;
     research_info := info; research_count := count;
     max_research := max_research d; rc := rc d |}.

(** [Debator(name=..., profile=..., opponent_name1=..., opponent_name2=...)]:
    the class defaults for the rest, and [__init__]'s
    [self._watch([UserRequirement, SpeakAloud])]. *)
Definition new_Debator (name profile opponent_name1 opponent_name2 : string)
    : Debator :=
  {| name := name; profile := profile;
     opponent_name1 := opponent_name1; opponent_name2 := opponent_name2;
     research_info := ""; research_count := 0; max_research := 1;
     rc := {| memory := []; msg_buffer := []; news := [];
              watch := [UserRequirement; SpeakAloud] |} |}.

(** [self.get_memories()] *)
Definition get_memories (d : Debator) : list Message := memory (rc d).

(** [self.rc.memory.add(msg)] *)
Definition memory_add (d : Debator) (msg : Message) : Debator :=
  with_rc d {| memory := memory (rc d) ++ [msg]; msg_buffer := msg_buffer (rc d);
               news := news (rc d); watch := watch (rc d) |}.

(** Modelled from the spec: [Role.put_message] of the MetaGPT base class
    [Role], which the sources import and do not define.  The scheduler passes
    the last message to the speaker; it waits in the speaker's buffer until
    the speaker observes. *)
Definition put_message (d : Debator) (msg : Message) : Debator :=
  with_rc d {| memory := memory (rc d); msg_buffer := msg_buffer (rc d) ++ [msg];
               news := news (rc d); watch := watch (rc d) |}.

(** Modelled from the spec: [Role._observe] of the MetaGPT base class, the
    [super()._observe()] of [Debator._observe].  The buffered messages enter
    the role's memory, and those the role watches or is addressed by become
    its news.  (Every message handed to a speaker is a fresh object, so the
    base class's test that news is not already in memory never fires here.) *)
Definition Role_observe (d : Debator) : Z * Debator :=
  let incoming := msg_buffer (rc d) in
  let fresh := filter (λ n, cause_by n ∈ watch (rc d) ∨ name d ∈ send_to n) incoming in
  (Z.of_nat (length fresh),
   with_rc d {| memory := memory (rc d) ++ incoming; msg_buffer := [];
                news := fresh; watch := watch (rc d) |}).

(** The condition of the comprehension in [Debator._observe]:
    [self.name in msg.send_to or msg.send_to == {self.name}] *)
Definition admits (viewer : string) (msg : Message) : Prop :=
  viewer ∈ send_to msg ∨ send_to msg = {[ viewer ]}.

#[global] Instance admits_dec viewer msg : Decision (admits viewer msg).
Proof. unfold admits. apply _. Defined.

(** [Debator._observe]: keep the news addressed to [self]. *)
Definition _observe (d : Debator) : Z * Debator :=
  let d := (Role_observe d).2 in
  let kept := filter (admits (name d)) (news (rc d)) in
  (Z.of_nat (length kept),
   with_rc d {| memory := memory (rc d); msg_buffer := msg_buffer (rc d);
                news := kept; watch := watch (rc d) |}).

(** The [Message(...)] that [Debator._act] builds around the reply [rsp];
    [todo] is the role's one action, [SpeakAloud]. *)
Definition reply_message (d : Debator) (rsp : string) : Message :=
  {| content := rsp; role := profile d; cause_by := SpeakAloud;
     sent_from := name d;
     send_to := {[ opponent_name1 d; opponent_name2 d ]} |}.

(** The [topic] computed by [Debator._act]:
    [self.get_memories()[0].content if self.get_memories() else "debate topic"] *)
Definition act_topic (d : Debator) : string :=
  match get_memories d with
  | m :: _ => content m
  | [] => "debate topic"
  end.

(** The [speaker_turns] computed by [Debator._act]. *)
Definition speaker_turns (d : Debator) : Z :=
  Z.of_nat (length (filter (λ m, sent_from m = name d) (get_memories d))).

(** The [context] computed by [Debator._act]. *)
Definition act_context (d : Debator) : string :=
  join nl (map (λ msg, sent_from msg +:+ ": " +:+ content msg) (get_memories d)).

(** The prompt that [Debator._act] has [SpeakAloud.run] send. *)
Definition act_prompt (src : SourceFile) (d : Debator) : string :=
  SpeakAloud_prompt (act_context d) (name d) (opponent_name1 d)
    (opponent_name2 d) (act_topic d)
    (SpeakAloud_instruction src (name d) (profile d) (speaker_turns d + 1))
    (research_info d).

(** ** The debate, over given collaborators *)

Module LogEntry.
(** An entry of [debate_log]. *)
Record t := { round : Z; speaker : string; content : string }.
End LogEntry.

Module ResearchEntry.
(** An entry of [research_log]. *)
Record t := { debater : string; research : string }.
End ResearchEntry.

(** The local variables of the round loop.  [main.py] keeps no [debate_log];
    there the field stays empty. *)
Record Session := {
  current_speaker : Debator;
  second_speaker : Debator;
  third_speaker : Debator;
  msg : Message;
  all_messages : list Message;
  debate_log : list LogEntry.t
}.

(** [range(n)] *)
Definition range (n : Z) : list Z := map Z.of_nat (seq 0 (Z.to_nat n)).

(** [for x in xs: s = body(s, x)] *)
Fixpoint for_each {S A : Type} (body : S -> A -> Eff S) (xs : list A) (s : S)
    : Eff S :=
  match xs with
  | [] => mret s
  | x :: rest => s' ← body s x; for_each body rest s'
  end.

Section Debate.
Context (E : External).

(** [await self._aask(prompt)] inside action [a]. *)
Definition _aask (a : ActionKind) (prompt : string) : Eff string :=
  call (Aask a prompt) a (λ tr, aask E tr a prompt).

Definition RequestResearch_run (name profile topic : string) : Eff string :=
  let prompt := RequestResearch_prompt name profile topic in
  _aask RequestResearch prompt.

Definition SpeakAloud_run (src : SourceFile) (context name opponent_name1
    opponent_name2 idea profile : string) (round_num : Z)
    (research_info : string) : Eff string :=
  let instruction := SpeakAloud_instruction src name profile round_num in
  let prompt := SpeakAloud_prompt context name opponent_name1 opponent_name2
                  idea instruction research_info in
  _aask SpeakAloud prompt.

Definition EvaluateDebate_run (topic debate_content : string) : Eff string :=
  let prompt := EvaluateDebate_prompt topic debate_content in
  _aask EvaluateDebate prompt.

Definition ProvideAdvice_run (topic evaluation : string) : Eff string :=
  let prompt := ProvideAdvice_prompt topic evaluation in
  _aask ProvideAdvice prompt.

(** The three actions imported from [research_actions], each one call to
    its oracle. *)
Definition CollectLinks_run (topic : string) (decomposition_nums
    url_per_query : Z) : Eff (list (string * list string)) :=
  call (CollectLinksRun topic decomposition_nums url_per_query) CollectLinks
       (λ tr, collect_links E tr topic decomposition_nums url_per_query).

Definition WebBrowseAndSummarize_run (urls : list string) (query : string)
    : Eff (list (string * string)) :=
  call (WebBrowseRun urls query) WebBrowseAndSummarize
       (λ tr, web_browse E tr urls query).

Definition ConductResearch_run (topic content : string) : Eff string :=
  call (ConductResearchRun topic content) ConductResearch
       (λ tr, conduct_research E tr topic content).

(** The [for query, urls in links.items()] loop of
    [Researcher.research_topic]. *)
Fixpoint browse_links (links : list (string * list string))
    (summaries : list string) (url_count : Z) : Eff (list string) :=
  match links with
  | [] => mret summaries
  | (query, urls) :: rest =>
      if bool_decide (urls ≠ []) && (url_count <? 4)%Z then
        let remaining_urls := (4 - url_count)%Z in
        let limited_urls := take (Z.to_nat remaining_urls) urls in
        result ← WebBrowseAndSummarize_run limited_urls query;
        browse_links rest (summaries ++ map snd result)
                     (url_count + Z.of_nat (length limited_urls))%Z
      else browse_links rest summaries url_count
  end.

(** [Researcher.research_topic] *)
Definition research_topic (topic : string) : Eff string :=
  links ← CollectLinks_run topic 2 2;
  summaries ← browse_links links [] 0;
  let content := join (nl +:+ "---" +:+ nl) summaries in
  report ← ConductResearch_run topic content;
  mret report.

(** [DebateEvaluator.evaluate] *)
Definition evaluate (topic : string) (debate_messages : list Message)
    : Eff string :=
  let debate_content :=
    join (nl +:+ nl)
         (map (λ msg, sent_from msg +:+ ": " +:+ content msg) debate_messages) in
  evaluation ← EvaluateDebate_run topic debate_content;
  mret evaluation.

(** [DebateAdvisor.advise] *)
Definition advise (topic evaluation : string) : Eff string :=
  advice ← ProvideAdvice_run topic evaluation;
  mret advice.

(** [Debator.request_research]; the researcher is the one of the session. *)
Definition request_research (d : Debator) (topic : string)
    : Eff (string * Debator) :=
  if (research_count d >=? max_research d)%Z then
    mret ("Research limit reached", d)
  else
    query ← RequestResearch_run (name d) (profile d) topic;
    research_result ← research_topic query;
    mret (research_result,
          with_research d
            (research_info d +:+ nl +:+ nl +:+ "Research Query: " +:+ query
               +:+ nl +:+ "Research Result: " +:+ research_result)
            (research_count d + 1)%Z).

(** [Debator._act] *)
Definition _act (src : SourceFile) (d : Debator) : Eff (Message * Debator) :=
  let context := act_context d in
  let topic := act_topic d in
  let speaker_turns := speaker_turns d in
  rsp ← SpeakAloud_run src context (name d) (opponent_name1 d)
          (opponent_name2 d) topic (profile d) (speaker_turns + 1)%Z
          (research_info d);
  let msg := reply_message d rsp in
  mret (msg, memory_add d msg).

(** Modelled from the spec: [Role.run] of the MetaGPT base class, which
    the sources import and do not define.  The message goes to the role, the
    role observes, and acts if there is news; without news nothing is
    produced. *)
Definition run (src : SourceFile) (d : Debator) (with_message : Message)
    : Eff (option Message * Debator) :=
  let d := put_message d with_message in
  let '(n, d) := _observe d in
  if (n =? 0)%Z then mret (None, d)
  else '(rsp, d) ← _act src d; mret (Some rsp, d).

(** The research phase: [for debater in debaters] over the three debaters,
    in list order.  The objects are updated in place, so the speakers of the
    round loop are the debaters as this phase leaves them. *)
Definition research_phase (idea : string) (School Student Parent : Debator)
    : Eff (Debator * Debator * Debator * list ResearchEntry.t) :=
  '(r1, School) ← request_research School idea;
  '(r2, Student) ← request_research Student idea;
  '(r3, Parent) ← request_research Parent idea;
  mret (School, Student, Parent,
        [ {| ResearchEntry.debater := name School; ResearchEntry.research := r1 |};
          {| ResearchEntry.debater := name Student; ResearchEntry.research := r2 |};
          {| ResearchEntry.debater := name Parent; ResearchEntry.research := r3 |} ]).

(** The state in which the round loop is entered. *)
Definition initial_session (idea : string) (School Student Parent : Debator)
    : Session :=
  {| current_speaker := School; second_speaker := Student;
     third_speaker := Parent;
     msg := {| content := idea; role := "user"; cause_by := UserRequirement;
               sent_from := "User"; send_to := {[ "Principal" ]} |};
     all_messages := []; debate_log := [] |}.

(** The statements of the loop body after the speaker's response: log it,
    store it, switch the speakers and make the response the next message. *)
Definition rotate (src : SourceFile) (s : Session) (round_num : Z)
    (speaker' : Debator) (response : Message) : Session :=
  {| current_speaker := third_speaker s;
     second_speaker := speaker';
     third_speaker := second_speaker s;
     msg := response;
     all_messages := all_messages s ++ [response];
     debate_log :=
       match src with
       | main_py => debate_log s
       | streamlit_debate_py =>
           debate_log s ++
             [ {| LogEntry.round := (round_num + 1)%Z;
                  LogEntry.speaker := name speaker';
                  LogEntry.content := content response |} ]
       end |}.

(** The body of [for round_num in range(n_round)].  [response.content] is
    read before anything is stored, and fails on [None]. *)
Definition round_body (src : SourceFile) (s : Session) (round_num : Z)
    : Eff Session :=
  '(response, speaker') ← run src (current_speaker s) (msg s);
  match response with
  | None => raise AttributeError
  | Some response => mret (rotate src s round_num speaker' response)
  end.

Definition debate_rounds (src : SourceFile) (n_round : Z) (s : Session)
    : Eff Session :=
  for_each (round_body src) (range n_round) s.

Definition School0 := new_Debator "Principal" "School" "John" "Mom".
Definition Student0 := new_Debator "John" "Student" "Mom" "Principal".
Definition Parent0 := new_Debator "Mom" "Parent" "Principal" "John".

(** [debate] of [main.py] *)
Definition debate (idea : string) (investment : float) (n_round : Z)
    : Eff string :=
  '(School, Student, Parent, _) ← research_phase idea School0 Student0 Parent0;
  s ← debate_rounds main_py n_round (initial_session idea School Student Parent);
  evaluation ← evaluate idea (all_messages s);
  mret evaluation.

(** [main] of [main.py]: [asyncio.run(debate(idea, investment, n_round))];
    the value of [debate] is dropped. *)
Definition main (idea : string) (investment : float) (n_round : Z)
    : Eff unit :=
  _ ← debate idea investment n_round;
  mret tt.

(** [run_debate] of [streamlit_debate.py] *)
Definition run_debate (idea : string) (n_round : Z)
    : Eff (list LogEntry.t * string * list ResearchEntry.t * string) :=
  '(School, Student, Parent, research_log) ←
    research_phase idea School0 Student0 Parent0;
  s ← debate_rounds streamlit_debate_py n_round
        (initial_session idea School Student Parent);
  evaluation ← evaluate idea (all_messages s);
  advice ← advise idea evaluation;
  mret (debate_log s, evaluation, research_log, advice).

End Debate.

(** ** The rotation *)

(** The speaker as it enters [_act] in [Role.run]: the message was put to it
    and it has observed. *)
Definition observed (d : Debator) (incoming : Message) : Debator :=
  (_observe (put_message d incoming)).2.

(** [next] is one of the two opponents that [d] addresses. *)
Definition addresses (d next : Debator) : Prop :=
  name next ∈ ({[ opponent_name1 d; opponent_name2 d ]} : gset string).

(** The pending message is addressed to the speaker whose turn it is, and
    each speaker addresses the one who takes the turn after it: the current
    speaker is followed by [third_speaker], that one by [second_speaker], and
    that one by the current speaker again. *)
Record scheduled (s : Session) : Prop := {
  incoming_addressed : name (current_speaker s) ∈ send_to (msg s);
  current_then_third : addresses (current_speaker s) (third_speaker s);
  third_then_second : addresses (third_speaker s) (second_speaker s);
  second_then_current : addresses (second_speaker s) (current_speaker s)
}.

(** The speakers of [n] rounds, by the tuple assignment
    [current, second, third = third, current, second]. *)
Fixpoint turn_names (current second third : string) (n : nat) : list string :=
  match n with
  | O => []
  | S n => current :: turn_names third current second n
  end.

(** The entry [run_debate] logs for round index [i] and response [m]. *)
Definition log_entry (i : Z) (m : Message) : LogEntry.t :=
  {| LogEntry.round := (i + 1)%Z;
     LogEntry.speaker := sent_from m;
     LogEntry.content := content m |}.

(** The speakers' own-message counts [speaker_turns], with what keeps them
    exact from round to round: no message waits in a buffer, the three names
    differ, and the pending message is not the current speaker's own. *)
Record turns (s : Session) (current second third : Z) : Prop := {
  turns_current : speaker_turns (current_speaker s) = current;
  turns_second : speaker_turns (second_speaker s) = second;
  turns_third : speaker_turns (third_speaker s) = third;
  buffer_current : msg_buffer (rc (current_speaker s)) = [];
  buffer_second : msg_buffer (rc (second_speaker s)) = [];
  buffer_third : msg_buffer (rc (third_speaker s)) = [];
  pending_not_own : sent_from (msg s) ≠ name (current_speaker s);
  current_not_second : name (current_speaker s) ≠ name (second_speaker s);
  current_not_third : name (current_speaker s) ≠ name (third_speaker s);
  second_not_third : name (second_speaker s) ≠ name (third_speaker s)
}.

(** The cyclic order that the session sets up before its first round: the
    speakers as [current_speaker], [second_speaker] and [third_speaker] name
    them (it is also the order of the [debaters] list, and the order in which
    each debater's [opponent_name1] follows it). *)
Definition session_start_order (s : Session) : list string :=
  [name (current_speaker s); name (second_speaker s); name (third_speaker s)].

(** The speaker that the order set up in [s] designates for the round with
    index [i], counted from 0. *)
Definition designated_speaker (s : Session) (i : nat) : string :=
  nth (i mod 3) (session_start_order s) "".

(** The order in which the speakers take turns. *)
Definition rotation : list string := ["Principal"; "Mom"; "John"].

(** The speaker of the round with index [i], counted from 0. *)
Definition speaker_of_round (i : nat) : string :=
  nth (i mod 3) rotation "".

(** ** What a computation adds to the trace *)

(** Whatever its outcome, [m] only appends events that satisfy [P]. *)
Definition emits {A} (P : Event -> Prop) (m : Eff A) : Prop :=
  ∀ tr, ∃ added, (m tr).2 = tr ++ added ∧ Forall P added.

(** The events of the research phase: questions asked by [RequestResearch]
    and calls of the researcher's three actions. *)
Definition research_only (ev : Event) : Prop :=
  match ev with
  | Aask a _ => a = RequestResearch
  | _ => True
  end.

(** The events of [Researcher.research_topic]: calls of its three actions
    only. *)
Definition researcher_only (ev : Event) : Prop :=
  is_research_event ev = true.

(** ** Reading the instruction texts *)

(** The instruction tells the speaker to leave the opponents alone. *)
Definition forbids_rebuttal (instruction : string) : bool :=
  contains "Do NOT rebut or respond to any of your opponents' arguments" instruction.

(** The instruction tells the speaker to go at the opponents' arguments, in
    one of the wordings the two files use. *)
Definition directs_rebuttal (instruction : string) : bool :=
  contains "respond to your opponents' latest arguments" instruction
  || contains "attack your opponents' arguments" instruction
  || contains "rebut your opponents' arguments" instruction.

(** The instruction tells the speaker to restate its position. *)
Definition directs_restate (instruction : string) : bool :=
  contains "restate" instruction.

(** The phase rule as the specification words it, for one speaker and one
    turn number. *)
Definition phase_rule (src : SourceFile) (name profile : string)
    (round_num : Z) : Prop :=
  let instruction := SpeakAloud_instruction src name profile round_num in
  ((1 <= round_num <= 3)%Z ->
     instruction = opening_instruction src profile round_num
     ∧ forbids_rebuttal instruction = true
     ∧ directs_rebuttal instruction = false)
  ∧ ((4 <= round_num)%Z ->
     instruction = rebuttal_instruction src name round_num
     ∧ directs_restate instruction = true
     ∧ directs_rebuttal instruction = true).

(** ** Sequences of research requests *)

(** The states a debator goes through under [request_research] calls, with
    any topics and at any points of the trace.  A call that raises assigns
    nothing and leaves the debator as it was. *)
Inductive after_requests (E : External) (d0 : Debator) : Debator -> Prop :=
  | requests_none : after_requests E d0 d0
  | requests_more d topic tr result d' tr' :
      after_requests E d0 d ->
      request_research E d topic tr = (Ok (result, d'), tr') ->
      after_requests E d0 d'.

(** ** Collaborators to run the debate against *)

(** Everything answers.  The speeches are numbered, so that no two are alike
    and none equals the topic. *)
Definition scripted : External := {|
  aask tr a p :=
    Some (match a with
          | RequestResearch => "query"
          | SpeakAloud => "speech " +:+ pretty (aask_count SpeakAloud tr + 1)%nat
          | EvaluateDebate => "evaluation"
          | ProvideAdvice => "advice"
          | _ => ""
          end);
  collect_links tr topic dn upq := Some [("q1", ["u1"; "u2"]); ("q2", ["u3"; "u4"])];
  web_browse tr urls q := Some (map (λ u, (u, "summary of " +:+ u)) urls);
  conduct_research tr topic content := Some "report"
|}.

(** As [scripted], but the language model fails on the third speech. *)
Definition third_speech_fails : External := {|
  aask tr a p :=
    match a with
    | SpeakAloud => if bool_decide (aask_count SpeakAloud tr = 2%nat) then None
                    else aask scripted tr a p
    | _ => aask scripted tr a p
    end;
  collect_links := collect_links scripted;
  web_browse := web_browse scripted;
  conduct_research := conduct_research scripted
|}.

(** As [scripted], but link collection raises. *)
Definition search_down : External := {|
  aask := aask scripted;
  collect_links tr topic dn upq := None;
  web_browse := web_browse scripted;
  conduct_research := conduct_research scripted
|}.

(** As [scripted], but nothing is found and the report is empty. *)
Definition nothing_found : External := {|
  aask := aask scripted;
  collect_links tr topic dn upq := Some [];
  web_browse := web_browse scripted;
  conduct_research tr topic content := Some ""
|}.

(** As [scripted], but link collection finds six URLs under three queries,
    one of them without any. *)
Definition wide_search : External := {|
  aask := aask scripted;
  collect_links tr topic dn upq :=
    Some [("q1", ["u1"; "u2"; "u3"]); ("q2", []); ("q3", ["u4"; "u5"; "u6"])];
  web_browse := web_browse scripted;
  conduct_research := conduct_research scripted
|}.

(** As [scripted], but the language model fails the evaluator. *)
Definition evaluator_fails : External := {|
  aask tr a p :=
    match a with
    | EvaluateDebate => None
    | _ => aask scripted tr a p
    end;
  collect_links := collect_links scripted;
  web_browse := web_browse scripted;
  conduct_research := conduct_research scripted
|}.

(** As [scripted], but the language model fails the advisor. *)
Definition advisor_fails : External := {|
  aask tr a p :=
    match a with
    | ProvideAdvice => None
    | _ => aask scripted tr a p
    end;
  collect_links := collect_links scripted;
  web_browse := web_browse scripted;
  conduct_research := conduct_research scripted
|}.

(** The session of the specification's end-to-end scenario. *)
Definition smartphones : string := "Should schools ban smartphones?".

(** What [request_research] leaves on each debater's ledger under
    [scripted]. *)
Definition scripted_research_info : string :=
  nl +:+ nl +:+ "Research Query: query" +:+ nl +:+ "Research Result: report".

(** The calls made under [search_down] until link collection raises. *)
Definition search_down_trace : Trace :=
  [ Aask RequestResearch (RequestResearch_prompt "Principal" "School" smartphones);
    CollectLinksRun "query" 2 2 ].

(** The specification's reading of a failing Evidence Provider, for the
    session on [idea] over the collaborators [E]: as long as the language
    model answers every question, the session returns, whatever the
    researcher's actions do. *)
Definition evidence_failure_is_not_fatal (E : External) (idea : string)
    (n_round : Z) : Prop :=
  (∀ tr a prompt, is_Some (aask E tr a prompt)) ->
  ∃ result tr', run_debate E idea n_round [] = (Ok result, tr').

(** ** Reading the researcher's calls *)

(** The URLs handed to [WebBrowseAndSummarize.run], over all its calls, in
    order. *)
Definition browsed_urls (tr : Trace) : list string :=
  concat (omap (λ ev, match ev with
                      | WebBrowseRun urls _ => Some urls
                      | _ => None
                      end) tr).

(** A call of [WebBrowseAndSummarize.run] with at least one URL. *)
Definition is_browse (ev : Event) : Prop :=
  match ev with
  | WebBrowseRun urls _ => urls ≠ []
  | _ => False
  end.

(** How often the researcher's action [a] was run. *)
Definition run_count (a : ActionKind) (tr : Trace) : nat :=
  length (List.filter (λ ev, match ev, a with
                             | CollectLinksRun _ _ _, CollectLinks => true
                             | WebBrowseRun _ _, WebBrowseAndSummarize => true
                             | ConductResearchRun _ _, ConductResearch => true
                             | _, _ => false
                             end) tr).

(** The block that a granted [request_research] appends to [research_info]. *)
Definition research_block (query research_result : string) : string :=
  nl +:+ nl +:+ "Research Query: " +:+ query
    +:+ nl +:+ "Research Result: " +:+ research_result.

(** ** The participants *)

Definition participants : gset string := {[ "Principal"; "John"; "Mom" ]}.

(** The debator is one of the three that [debate] and [run_debate] create,
    with the opponents given there. *)
Definition wired (d : Debator) : Prop :=
  (name d, profile d, opponent_name1 d, opponent_name2 d)
  ∈ [ ("Principal", "School", "John", "Mom");
      ("John", "Student", "Mom", "Principal");
      ("Mom", "Parent", "Principal", "John") ].

(** The message was produced by [SpeakAloud] and goes to the two participants
    other than its sender. *)
Definition addressed_to_the_others (m : Message) : Prop :=
  sent_from m ∈ participants
  ∧ send_to m = participants ∖ {[ sent_from m ]}
  ∧ cause_by m = SpeakAloud.

(** [d] is [d0] except for its role context (memory, buffer, news). *)
Definition same_but_rc (d0 d : Debator) : Prop := with_rc d (rc d0) = d0.

(** The speakers of the session are the three debaters as the research phase
    left them, up to their role contexts, and every stored message goes to
    the two others. *)
Record in_debate (School Student Parent : Debator) (s : Session) : Prop := {
  speakers_kept :
    Forall (λ d, ∃ d0, d0 ∈ [School; Student; Parent] ∧ same_but_rc d0 d)
           [current_speaker s; second_speaker s; third_speaker s];
  messages_addressed : Forall addressed_to_the_others (all_messages s)
}.

(** * Properties *)

(** ** The monad *)

Lemma bind_unfold {A B} (m : Eff A) (f : A -> Eff B) tr :
  (m ≫= f) tr = match m tr with
                | (Ok a, tr') => f a tr'
                | (Raise e, tr') => (Raise e, tr')
                end.
Proof. reflexivity. Qed.

Lemma bind_Ok {A B} (m : Eff A) (f : A -> Eff B) tr a tr' :
  m tr = (Ok a, tr') -> (m ≫= f) tr = f a tr'.
Proof. intros H. unfold mbind, Eff_bind. by rewrite H. Qed.

Lemma bind_Raise {A B} (m : Eff A) (f : A -> Eff B) tr e tr' :
  m tr = (Raise e, tr') -> (m ≫= f) tr = (Raise e, tr').
Proof. intros H. unfold mbind, Eff_bind. by rewrite H. Qed.

Lemma bind_inv_Ok {A B} (m : Eff A) (f : A -> Eff B) tr b tr2 :
  (m ≫= f) tr = (Ok b, tr2) ->
  ∃ a tr1, m tr = (Ok a, tr1) ∧ f a tr1 = (Ok b, tr2).
Proof.
  unfold mbind, Eff_bind. destruct (m tr) as [[a|e] tr1]; intros H.
  - eauto.
  - discriminate.
Qed.

Lemma for_each_app {S A} (body : S -> A -> Eff S) xs ys (s : S) tr :
  for_each body (xs ++ ys) s tr
  = (for_each body xs s ≫= for_each body ys) tr.
Proof.
  revert s tr. induction xs as [|x xs IH]; intros s tr; simpl.
  - reflexivity.
  - rewrite (bind_unfold (body s x ≫= _)). rewrite !(bind_unfold (body s x)).
    destruct (body s x tr) as [[s'|e] tr']; [| reflexivity].
    rewrite IH. apply bind_unfold.
Qed.

(** ** C4: the singleton test of the observation filter is redundant *)

Lemma admits_iff_elem_of viewer msg :
  admits viewer msg ↔ viewer ∈ send_to msg.
Proof.
  unfold admits. split.
  - intros [H | H]; [exact H | rewrite H; set_solver].
  - auto.
Qed.

(** C4.  A viewer's observation filter admits a message exactly when the
    viewer's name is a member of the message's [send_to]; the disjunct
    [send_to == {viewer}] never changes the result, and the news kept by
    [Debator._observe] is the news of the base class filtered by membership
    alone. *)
Theorem observe_filter_is_membership :
  (∀ viewer msg, admits viewer msg ↔ viewer ∈ send_to msg)
  ∧ (∀ viewer (l : list Message),
       filter (admits viewer) l = filter (λ msg, viewer ∈ send_to msg) l)
  ∧ (∀ d, news (rc (_observe d).2)
          = filter (λ msg, name d ∈ send_to msg) (news (rc (Role_observe d).2))).
Proof.
  split; [exact admits_iff_elem_of |].
  assert (Hf : ∀ viewer (l : list Message),
            filter (admits viewer) l = filter (λ msg, viewer ∈ send_to msg) l).
  { intros viewer l. apply list_filter_iff. intros msg. apply admits_iff_elem_of. }
  split; [exact Hf |].
  intros d. unfold _observe. simpl. apply Hf.
Qed.

(** ** C3: the research cap *)

Lemma request_research_refused E d topic tr :
  (research_count d >= max_research d)%Z ->
  request_research E d topic tr = (Ok ("Research limit reached", d), tr).
Proof.
  intros H. unfold request_research.
  rewrite Z.geb_leb.
  destruct (Z.leb_spec (max_research d) (research_count d)) as [_ | Hgt].
  - reflexivity.
  - lia.
Qed.

(** What a granted request does to the debator. *)
Lemma request_research_granted E d topic tr result d' tr' :
  (research_count d < max_research d)%Z ->
  request_research E d topic tr = (Ok (result, d'), tr') ->
  ∃ query, d' = with_research d
                  (research_info d +:+ nl +:+ nl +:+ "Research Query: " +:+ query
                     +:+ nl +:+ "Research Result: " +:+ result)
                  (research_count d + 1)%Z.
Proof.
  intros Hlt. unfold request_research.
  rewrite Z.geb_leb.
  destruct (Z.leb_spec (max_research d) (research_count d)) as [Hle | _]; [lia |].
  intros H.
  apply bind_inv_Ok in H as (query & tr1 & _ & H).
  apply bind_inv_Ok in H as (report & tr2 & _ & H).
  injection H as Hr Hd Ht. subst. by exists query.
Qed.

Lemma request_research_keeps_cap E d topic tr result d' tr' :
  request_research E d topic tr = (Ok (result, d'), tr') ->
  max_research d' = max_research d
  ∧ (research_count d <= research_count d')%Z
  ∧ ((research_count d <= max_research d)%Z ->
     (research_count d' <= max_research d')%Z).
Proof.
  intros H.
  destruct (Z_lt_ge_dec (research_count d) (max_research d)) as [Hlt | Hge].
  - destruct (request_research_granted _ _ _ _ _ _ _ Hlt H) as [query ->].
    simpl. lia.
  - rewrite (request_research_refused E d topic tr Hge) in H.
    injection H as Hr Hd Ht. subst. lia.
Qed.

(** C3.  Whatever sequence of [request_research] calls a debator of the
    session has gone through, its [research_count] does not exceed
    [max_research], which is 1; and a call made once the count has reached
    the cap returns the sentinel "Research limit reached", adds no call to the
    trace (neither the language model nor the researcher is invoked) and
    leaves the debator, so [research_info] and [research_count], as it was. *)
Theorem research_count_within_cap E name profile opponent_name1 opponent_name2 d :
  after_requests E (new_Debator name profile opponent_name1 opponent_name2) d ->
  (0 <= research_count d <= max_research d)%Z
  ∧ max_research d = 1%Z
  ∧ ∀ topic tr,
      (research_count d >= max_research d)%Z ->
      request_research E d topic tr = (Ok ("Research limit reached", d), tr).
Proof.
  intros H. split; [| split].
  - induction H as [| d topic tr result d' tr' _ IH Hstep]; simpl; [lia |].
    destruct (request_research_keeps_cap _ _ _ _ _ _ _ Hstep) as (_ & Hmono & Hcap).
    lia.
  - induction H as [| d topic tr result d' tr' _ IH Hstep]; simpl; [reflexivity |].
    destruct (request_research_keeps_cap _ _ _ _ _ _ _ Hstep) as (Hmax & _).
    congruence.
  - intros topic tr. apply request_research_refused.
Qed.

(** The Principal after its request of the research phase, asking again. *)
Lemma research_count_within_cap_witness :
  ∃ d, after_requests scripted School0 d
       ∧ research_count d = 1%Z
       ∧ request_research scripted d "again" []
         = (Ok ("Research limit reached", d), []).
Proof.
  destruct (request_research scripted School0 smartphones []) as [[[r d] | e] tr] eqn:Hreq;
    [| vm_compute in Hreq; discriminate].
  exists d.
  assert (Hafter : after_requests scripted School0 d).
  { eapply requests_more; [apply requests_none | exact Hreq]. }
  assert (Hcount : research_count d = 1%Z).
  { vm_compute in Hreq. injection Hreq as _ Hd _. by subst d. }
  split; [exact Hafter |]. split; [exact Hcount |].
  destruct (research_count_within_cap scripted "Principal" "School" "John" "Mom" d Hafter)
    as (_ & Hmax & Hrefuse).
  apply Hrefuse. rewrite Hcount, Hmax. lia.
Defined.

(** ** C9: the investment *)

(** C9.  [investment] is not used: two runs of [debate], or of [main], that
    differ only in it are the same computation over the same collaborators:
    the same calls with the same prompts (so the same messages and the same
    evaluation request) and the same returned result. *)
Theorem investment_is_ignored E idea (investment1 investment2 : float) n_round tr :
  debate E idea investment1 n_round tr = debate E idea investment2 n_round tr
  ∧ main E idea investment1 n_round tr = main E idea investment2 n_round tr.
Proof. split; reflexivity. Qed.

(** ** C2: the instruction follows the speaker's turn number *)

Lemma prefix_app_l sub a b :
  String.prefix sub a = true -> String.prefix sub (a +:+ b) = true.
Proof.
  revert a. induction sub as [|c sub IH]; intros a; [by destruct (a +:+ b) |].
  destruct a as [|c' a]; simpl; [discriminate |].
  destruct (Ascii.ascii_dec c c'); [apply IH | discriminate].
Qed.

Lemma contains_cons sub c s :
  contains sub (String c s)
  = if String.prefix sub (String c s) then true else contains sub s.
Proof. reflexivity. Qed.

Lemma contains_app_l sub a b :
  contains sub a = true -> contains sub (a +:+ b) = true.
Proof.
  induction a as [|c a IH]; intros H.
  - destruct sub; [| discriminate]. by destruct b.
  - change (String c a +:+ b) with (String c (a +:+ b)).
    rewrite contains_cons in *.
    destruct (String.prefix sub (String c a)) eqn:Hp.
    + apply (prefix_app_l _ _ b) in Hp.
      change (String c a +:+ b) with (String c (a +:+ b)) in Hp.
      by rewrite Hp.
    + destruct (String.prefix sub (String c (a +:+ b))); [reflexivity |].
      by apply IH.
Qed.

Lemma contains_app_r sub a b :
  contains sub b = true -> contains sub (a +:+ b) = true.
Proof.
  intros H. induction a as [|c a IH]; [exact H |].
  change (String c a +:+ b) with (String c (a +:+ b)).
  rewrite contains_cons.
  by destruct (String.prefix sub (String c (a +:+ b))).
Qed.

(** [sub] occurs in the fixed text that follows the round number. *)
Ltac after_round_number :=
  apply contains_app_r, contains_app_r, contains_app_l; vm_compute; reflexivity.

Lemma rebuttal_directs_rebuttal src name round_num :
  directs_rebuttal (rebuttal_instruction src name round_num) = true.
Proof.
  unfold directs_rebuttal. destruct src; simpl.
  - apply orb_true_iff. right. after_round_number.
  - apply orb_true_iff. left. apply orb_true_iff. left. after_round_number.
Qed.

Lemma streamlit_rebuttal_restates name round_num :
  contains "first restate your view, then closely respond to your opponents' latest arguments"
           (rebuttal_instruction streamlit_debate_py name round_num) = true.
Proof. simpl. after_round_number. Qed.

Lemma main_rebuttal_rebuts name round_num :
  contains "defend your arguments, and attack and directly rebut your opponents' arguments"
           (rebuttal_instruction main_py name round_num) = true.
Proof. simpl. after_round_number. Qed.

Lemma opening_forbids_rebuttal src profile round_num :
  forbids_rebuttal (opening_instruction src profile round_num) = true.
Proof. unfold forbids_rebuttal. destruct src; simpl; after_round_number. Qed.

(** The call [Debator._act] makes: one question to the language model, whose
    instruction is the one for the count of the speaker's own messages in its
    memory, plus one. *)
Lemma _act_trace E src d tr :
  (_act E src d tr).2 = tr ++ [Aask SpeakAloud (act_prompt src d)].
Proof.
  unfold _act, SpeakAloud_run, _aask. rewrite bind_unfold. unfold call.
  by destruct (aask E tr SpeakAloud _).
Qed.

(** C2 as stated fails in [main.py]: the instruction of a fourth turn does
    not mention restating. *)
Lemma phase_rule_fails_in_main_py : ¬ phase_rule main_py "Mom" "Parent" 4.
Proof.
  intros [_ H]. destruct H as (_ & Hrestate & _); [lia |].
  vm_compute in Hrestate. discriminate.
Qed.

(** C2, amended.  [Debator._act] asks with the instruction selected by the
    speaker's own turn number, [speaker_turns + 1].  For the three speakers of
    the session, turn numbers 1..3 give the opening instruction, which forbids
    rebutting or responding to the opponents and directs neither a rebuttal
    nor a restatement; every turn number from 4 on gives the rebuttal
    instruction, which directs the speaker at the opponents' arguments: in
    [streamlit_debate.py] to first restate its view and then respond to the
    opponents' latest arguments, in [main.py] to defend its arguments and
    directly rebut the opponents'. *)
Theorem instruction_follows_turn_number E src d round_num :
  (name d, profile d) ∈ [("Principal", "School"); ("John", "Student"); ("Mom", "Parent")] ->
  (1 <= round_num)%Z ->
  let instruction := SpeakAloud_instruction src (name d) (profile d) round_num in
  (∀ tr, prompts_of SpeakAloud (_act E src d tr).2
         = prompts_of SpeakAloud tr ++
           [SpeakAloud_prompt (act_context d) (name d) (opponent_name1 d)
              (opponent_name2 d) (act_topic d)
              (SpeakAloud_instruction src (name d) (profile d) (speaker_turns d + 1))
              (research_info d)])
  ∧ ((round_num <= 3)%Z ->
       instruction = opening_instruction src (profile d) round_num
       ∧ forbids_rebuttal instruction = true
       ∧ directs_rebuttal instruction = false
       ∧ directs_restate instruction = false)
  ∧ ((4 <= round_num)%Z ->
       instruction = rebuttal_instruction src (name d) round_num
       ∧ directs_rebuttal instruction = true
       ∧ match src with
         | streamlit_debate_py =>
             contains "first restate your view, then closely respond to your opponents' latest arguments"
                      instruction = true
         | main_py =>
             contains "defend your arguments, and attack and directly rebut your opponents' arguments"
                      instruction = true
         end).
Proof.
  intros Hd Hpos instruction. split; [| split].
  - intros tr. rewrite _act_trace. unfold prompts_of.
    rewrite omap_app. simpl. reflexivity.
  - intros Hle. subst instruction. unfold SpeakAloud_instruction.
    destruct (Z.leb_spec round_num 3) as [_ | Hgt]; [| lia].
    split; [reflexivity |]. split; [apply opening_forbids_rebuttal |].
    assert (Hround : round_num = 1%Z ∨ round_num = 2%Z ∨ round_num = 3%Z) by lia.
    assert (Hprofile : profile d = "School" ∨ profile d = "Student" ∨ profile d = "Parent").
    { rewrite !elem_of_cons, elem_of_nil in Hd.
      destruct Hd as [Hd | [Hd | [Hd | []]]]; injection Hd as _ ->; auto. }
    destruct Hprofile as [-> | [-> | ->]]; destruct Hround as [-> | [-> | ->]];
      destruct src; vm_compute; split; reflexivity.
  - intros Hge. subst instruction. unfold SpeakAloud_instruction.
    destruct (Z.leb_spec round_num 3) as [Hle | _]; [lia |].
    split; [reflexivity |]. split; [apply rebuttal_directs_rebuttal |].
    destruct src; [apply main_rebuttal_rebuts | apply streamlit_rebuttal_restates].
Qed.

(** Mom's fourth turn in [streamlit_debate.py]. *)
Lemma instruction_follows_turn_number_witness :
  contains "first restate your view, then closely respond to your opponents' latest arguments"
           (SpeakAloud_instruction streamlit_debate_py "Mom" "Parent" 4) = true.
Proof.
  assert (Hd : (name Parent0, profile Parent0)
               ∈ [("Principal", "School"); ("John", "Student"); ("Mom", "Parent")]).
  { rewrite !elem_of_cons. right. right. left. reflexivity. }
  assert (Hpos : (1 <= 4)%Z) by lia.
  destruct (instruction_follows_turn_number scripted streamlit_debate_py Parent0 4 Hd Hpos)
    as (_ & _ & H).
  destruct H as (_ & _ & H); [lia | exact H].
Defined.

(** ** One round *)

Lemma observed_wiring d m :
  name (observed d m) = name d
  ∧ profile (observed d m) = profile d
  ∧ opponent_name1 (observed d m) = opponent_name1 d
  ∧ opponent_name2 (observed d m) = opponent_name2 d
  ∧ research_info (observed d m) = research_info d.
Proof. by repeat split. Qed.

Lemma observed_memory d m :
  memory (rc (observed d m)) = memory (rc d) ++ msg_buffer (rc d) ++ [m].
Proof. reflexivity. Qed.

(** A message addressed to the speaker is among the news it observes. *)
Lemma observed_news d m :
  name d ∈ send_to m -> m ∈ news (rc (observed d m)).
Proof.
  intros Hin. unfold observed, _observe, Role_observe, put_message. simpl.
  apply list_elem_of_filter. split; [by left |].
  apply list_elem_of_filter. split; [by right |].
  apply elem_of_app. right. apply list_elem_of_singleton. reflexivity.
Qed.

Lemma observe_count_pos d m :
  name d ∈ send_to m -> (_observe (put_message d m)).1 ≠ 0%Z.
Proof.
  intros Hin. pose proof (observed_news d m Hin) as Hnews.
  unfold observed in Hnews. unfold _observe in *. simpl in *.
  destruct (filter _ _); [by apply elem_of_nil in Hnews | simpl; lia].
Qed.

(** [Role.run] on a message addressed to the role: the role acts, and the
    outcome is that of the one question to the language model. *)
Lemma run_addressed E src d m tr :
  name d ∈ send_to m ->
  let d' := observed d m in
  run E src d m tr
  = match aask E tr SpeakAloud (act_prompt src d') with
    | Some rsp =>
        (Ok (Some (reply_message d' rsp), memory_add d' (reply_message d' rsp)),
         tr ++ [Aask SpeakAloud (act_prompt src d')])
    | None =>
        (Raise (ActionError SpeakAloud), tr ++ [Aask SpeakAloud (act_prompt src d')])
    end.
Proof.
  intros Hin d'. pose proof (observe_count_pos d m Hin) as Hcount.
  unfold run. subst d'. unfold observed.
  destruct (_observe (put_message d m)) as [n d1]. simpl in *.
  destruct (Z.eqb_spec n 0) as [? | _]; [done |].
  rewrite bind_unfold. unfold _act, SpeakAloud_run, _aask. rewrite bind_unfold.
  unfold call. fold (act_prompt src d1).
  by destruct (aask E tr SpeakAloud (act_prompt src d1)).
Qed.

(** A round whose pending message is addressed to the current speaker. *)
Lemma round_body_addressed E src s round_num tr :
  name (current_speaker s) ∈ send_to (msg s) ->
  let d' := observed (current_speaker s) (msg s) in
  round_body E src s round_num tr
  = match aask E tr SpeakAloud (act_prompt src d') with
    | Some rsp =>
        (Ok (rotate src s round_num (memory_add d' (reply_message d' rsp))
               (reply_message d' rsp)),
         tr ++ [Aask SpeakAloud (act_prompt src d')])
    | None =>
        (Raise (ActionError SpeakAloud), tr ++ [Aask SpeakAloud (act_prompt src d')])
    end.
Proof.
  intros Hin d'. unfold round_body. rewrite bind_unfold.
  rewrite (run_addressed E src _ _ tr Hin). fold d'.
  by destruct (aask E tr SpeakAloud (act_prompt src d')).
Qed.

(** The rotation keeps the schedule. *)
Lemma rotate_scheduled src s round_num rsp :
  scheduled s ->
  let d' := observed (current_speaker s) (msg s) in
  scheduled (rotate src s round_num (memory_add d' (reply_message d' rsp))
               (reply_message d' rsp)).
Proof.
  intros [Hin Hct Hts Hsc] d'. split; simpl.
  - exact Hct.
  - exact Hts.
  - exact Hsc.
  - exact Hct.
Qed.

(** ** Several rounds *)

Lemma turn_names_mod current second third n :
  turn_names current second third n
  = map (λ i, nth (i mod 3) [current; third; second] "") (seq 0 n).
Proof.
  revert current second third. induction n as [|n IH]; intros c s t; [reflexivity |].
  simpl turn_names. rewrite IH. simpl seq. rewrite <- seq_shift.
  rewrite List.map_cons, List.map_map. f_equal.
  apply List.map_ext. intros i.
  replace (S i) with (i + 1)%nat by lia.
  rewrite <- Nat.Div0.add_mod_idemp_l.
  pose proof (Nat.mod_upper_bound i 3 ltac:(lia)) as Hlt.
  destruct (i mod 3)%nat as [|[|[|r]]]; [reflexivity .. | lia].
Qed.

(** What [xs] successful rounds do to a scheduled session: one reply and one
    question to the language model per round, the replies stored in order
    and sent by the speakers in turn; nothing else is called. *)
Lemma rounds_spec E src xs : ∀ s tr s' tr',
  scheduled s ->
  for_each (round_body E src) xs s tr = (Ok s', tr') ->
  ∃ replies prompts,
    length replies = length xs
    ∧ length prompts = length xs
    ∧ all_messages s' = all_messages s ++ replies
    ∧ tr' = tr ++ map (Aask SpeakAloud) prompts
    ∧ map sent_from replies
      = turn_names (name (current_speaker s)) (name (second_speaker s))
                   (name (third_speaker s)) (length xs)
    ∧ last (turn_names (name (current_speaker s)) (name (second_speaker s))
                       (name (third_speaker s)) (S (length xs)))
      = Some (name (current_speaker s'))
    ∧ debate_log s'
      = debate_log s ++ match src with
                        | main_py => []
                        | streamlit_debate_py =>
                            map (λ p, log_entry p.1 p.2) (zip xs replies)
                        end
    ∧ scheduled s'.
Proof.
  induction xs as [|x xs IH]; intros s tr s' tr' Hs Hrun; simpl in Hrun.
  - injection Hrun as <- <-. exists [], []. simpl.
    rewrite !app_nil_r. split_and!; try done. by destruct src; rewrite app_nil_r.
  - apply bind_inv_Ok in Hrun as (s1 & tr1 & Hround & Hrest).
    rewrite (round_body_addressed E src s x tr (incoming_addressed s Hs)) in Hround.
    set (d' := observed (current_speaker s) (msg s)) in *.
    destruct (aask E tr SpeakAloud (act_prompt src d')) as [rsp |]; [| discriminate].
    injection Hround as <- <-.
    pose proof (rotate_scheduled src s x rsp Hs) as Hs1. fold d' in Hs1.
    destruct (IH _ _ _ _ Hs1 Hrest)
      as (replies & prompts & Hlr & Hlp & Hall & Htr & Hfrom & Hcur & Hlog & Hs').
    exists (reply_message d' rsp :: replies), (act_prompt src d' :: prompts).
    simpl in Hall, Hfrom, Hcur, Hlog |- *.
    rewrite Hlr, Hlp, Hall, Htr, Hfrom, Hlog, <- !app_assoc.
    split_and!; try done.
    destruct src; [done |]. by rewrite <- app_assoc.
Qed.

(** A failing question ends the loop at once. *)
Lemma rounds_fail E src xs x ys s tr s1 tr1 :
  scheduled s ->
  for_each (round_body E src) xs s tr = (Ok s1, tr1) ->
  aask E tr1 SpeakAloud
       (act_prompt src (observed (current_speaker s1) (msg s1))) = None ->
  for_each (round_body E src) (xs ++ x :: ys) s tr
  = (Raise (ActionError SpeakAloud),
     tr1 ++ [Aask SpeakAloud
               (act_prompt src (observed (current_speaker s1) (msg s1)))]).
Proof.
  intros Hs Hrun Hfail.
  destruct (rounds_spec E src xs s tr s1 tr1 Hs Hrun) as (_ & _ & _ & _ & _ & _ & _ & _ & _ & Hs1).
  rewrite for_each_app, (bind_Ok _ _ _ _ _ Hrun). simpl.
  apply bind_Raise.
  rewrite (round_body_addressed E src s1 x tr1 (incoming_addressed s1 Hs1)).
  by rewrite Hfail.
Qed.

Lemma range_length n : length (range n) = Z.to_nat n.
Proof. unfold range. by rewrite List.length_map, List.length_seq. Qed.

Lemma range_split (k n : Z) :
  (0 <= k < n)%Z ->
  range n = range k ++ k :: map Z.of_nat (seq (S (Z.to_nat k)) (Z.to_nat (n - k - 1))).
Proof.
  intros Hk. unfold range.
  replace (Z.to_nat n) with (Z.to_nat k + S (Z.to_nat (n - k - 1)))%nat by lia.
  rewrite List.seq_app, List.map_app. simpl. f_equal. f_equal. lia.
Qed.

(** ** The session *)

Lemma request_research_wiring E d topic tr result d' tr' :
  request_research E d topic tr = (Ok (result, d'), tr') ->
  name d' = name d ∧ profile d' = profile d
  ∧ opponent_name1 d' = opponent_name1 d ∧ opponent_name2 d' = opponent_name2 d
  ∧ rc d' = rc d.
Proof.
  intros H.
  destruct (Z_lt_ge_dec (research_count d) (max_research d)) as [Hlt | Hge].
  - by destruct (request_research_granted _ _ _ _ _ _ _ Hlt H) as [query ->].
  - rewrite (request_research_refused E d topic tr Hge) in H.
    injection H as Hr Hd Ht. by subst.
Qed.

Lemma research_phase_wiring E idea School Student Parent tr d1 d2 d3 log tr' :
  research_phase E idea School Student Parent tr = (Ok (d1, d2, d3, log), tr') ->
  (name d1 = name School ∧ opponent_name1 d1 = opponent_name1 School
   ∧ opponent_name2 d1 = opponent_name2 School)
  ∧ (name d2 = name Student ∧ opponent_name1 d2 = opponent_name1 Student
     ∧ opponent_name2 d2 = opponent_name2 Student)
  ∧ (name d3 = name Parent ∧ opponent_name1 d3 = opponent_name1 Parent
     ∧ opponent_name2 d3 = opponent_name2 Parent)
  ∧ rc d1 = rc School ∧ rc d2 = rc Student ∧ rc d3 = rc Parent.
Proof.
  unfold research_phase. intros H.
  apply bind_inv_Ok in H as ([r1 e1] & tr1 & H1 & H).
  apply bind_inv_Ok in H as ([r2 e2] & tr2 & H2 & H).
  apply bind_inv_Ok in H as ([r3 e3] & tr3 & H3 & H).
  injection H as -> -> -> _ _.
  apply request_research_wiring in H1 as (? & _ & ? & ? & ?).
  apply request_research_wiring in H2 as (? & _ & ? & ? & ?).
  apply request_research_wiring in H3 as (? & _ & ? & ? & ?).
  by split_and!.
Qed.

(** The round loop is entered in a scheduled session. *)
Lemma initial_session_scheduled E idea tr School Student Parent log tr' :
  research_phase E idea School0 Student0 Parent0 tr
    = (Ok (School, Student, Parent, log), tr') ->
  scheduled (initial_session idea School Student Parent)
  ∧ name School = "Principal" ∧ name Student = "John" ∧ name Parent = "Mom".
Proof.
  intros H. apply research_phase_wiring in H
    as ((n1 & a1 & b1) & (n2 & a2 & b2) & (n3 & a3 & b3) & _).
  split; [| done].
  split; unfold addresses; simpl;
    rewrite ?n1, ?a1, ?b1, ?n2, ?a2, ?b2, ?n3, ?a3, ?b3; simpl;
    rewrite ?elem_of_union, !elem_of_singleton; auto.
Qed.

(** ** Counting calls *)

Lemma emits_ret {A} P (a : A) : emits P (mret a).
Proof. intros tr. exists []. by rewrite app_nil_r. Qed.

Lemma emits_raise {A} P e : emits P (@raise A e).
Proof. intros tr. exists []. by rewrite app_nil_r. Qed.

Lemma emits_call {A} (P : Event -> Prop) ev owner (answer : Trace -> option A) :
  P ev -> emits P (call ev owner answer).
Proof.
  intros Hev tr. exists [ev]. unfold call.
  destruct (answer tr); split; simpl; auto.
Qed.

Lemma emits_bind {A B} P (m : Eff A) (f : A -> Eff B) :
  emits P m -> (∀ a, emits P (f a)) -> emits P (m ≫= f).
Proof.
  intros Hm Hf tr. rewrite bind_unfold.
  destruct (Hm tr) as (added1 & Htr1 & HP1).
  destruct (m tr) as [[a | e] tr1]; simpl in Htr1; subst tr1.
  - destruct (Hf a (tr ++ added1)) as (added2 & Htr2 & HP2).
    exists (added1 ++ added2). rewrite Htr2, app_assoc. split; [done |].
    by apply Forall_app.
  - by exists added1.
Qed.

Lemma emits_browse_links E links : ∀ summaries url_count,
  emits researcher_only (browse_links E links summaries url_count).
Proof.
  induction links as [| [query urls] rest IH]; intros summaries url_count; simpl.
  - apply emits_ret.
  - destruct (bool_decide (urls ≠ []) && (url_count <? 4)%Z); [| apply IH].
    apply emits_bind; [by apply emits_call | intros result; apply IH].
Qed.

Lemma emits_research_topic E topic : emits researcher_only (research_topic E topic).
Proof.
  unfold research_topic.
  apply emits_bind; [by apply emits_call | intros links].
  apply emits_bind; [apply emits_browse_links | intros summaries].
  apply emits_bind; [by apply emits_call | intros report; apply emits_ret].
Qed.

Lemma emits_weaken {A} (P Q : Event -> Prop) (m : Eff A) :
  (∀ ev, P ev -> Q ev) -> emits P m -> emits Q m.
Proof.
  intros HPQ Hm tr. destruct (Hm tr) as (added & Htr & HP).
  exists added. split; [done |]. eapply Forall_impl; eauto.
Qed.

Lemma emits_request_research E d topic :
  emits research_only (request_research E d topic).
Proof.
  unfold request_research.
  destruct (research_count d >=? max_research d)%Z; [apply emits_ret |].
  apply emits_bind; [by apply emits_call | intros query].
  apply emits_bind; [| intros report; apply emits_ret].
  apply (emits_weaken researcher_only); [| apply emits_research_topic].
  by intros [].
Qed.

Lemma emits_research_phase E idea School Student Parent :
  emits research_only (research_phase E idea School Student Parent).
Proof.
  unfold research_phase.
  apply emits_bind; [apply emits_request_research | intros [r1 d1]].
  apply emits_bind; [apply emits_request_research | intros [r2 d2]].
  apply emits_bind; [apply emits_request_research | intros [r3 d3]].
  apply emits_ret.
Qed.

Lemma aask_count_app a tr1 tr2 :
  aask_count a (tr1 ++ tr2) = (aask_count a tr1 + aask_count a tr2)%nat.
Proof. unfold aask_count. by rewrite List.filter_app, List.length_app. Qed.

Lemma aask_count_research_only a added :
  a ≠ RequestResearch -> Forall research_only added -> aask_count a added = 0%nat.
Proof.
  intros Ha Hall. unfold aask_count.
  induction Hall as [| ev added Hev _ IH]; [reflexivity |].
  simpl. destruct ev as [a' p | | |]; simpl in *; try exact IH.
  subst a'. rewrite bool_decide_eq_false_2; [exact IH | congruence].
Qed.

Lemma aask_count_speeches a prompts :
  aask_count a (map (Aask SpeakAloud) prompts)
  = if bool_decide (SpeakAloud = a) then length prompts else 0%nat.
Proof.
  unfold aask_count. induction prompts as [| p prompts IH]; simpl.
  - by destruct (bool_decide _).
  - destruct (bool_decide (SpeakAloud = a)); simpl; by rewrite IH.
Qed.

(** The research phase asks nothing on behalf of the debate proper. *)
Lemma research_phase_counts E idea School Student Parent tr res tr' a :
  a ≠ RequestResearch ->
  research_phase E idea School Student Parent tr = (res, tr') ->
  aask_count a tr' = aask_count a tr.
Proof.
  intros Ha Hrun.
  destruct (emits_research_phase E idea School Student Parent tr) as (added & Htr & Hall).
  rewrite Hrun in Htr. simpl in Htr. subst tr'.
  rewrite aask_count_app, (aask_count_research_only a added Ha Hall). lia.
Qed.


Lemma map_zip_snd {A B C} (f : B -> C) (xs : list A) (ys : list B) :
  length ys = length xs -> map (λ p, f p.2) (zip xs ys) = map f ys.
Proof.
  revert ys. induction xs as [| x xs IH]; intros [| y ys] Hlen; simpl in *;
    try done. f_equal. apply IH. lia.
Qed.

Lemma last_turn_name current second third n :
  last (turn_names current second third (S n))
  = Some (nth (n mod 3) [current; third; second] "").
Proof.
  rewrite turn_names_mod, seq_S, List.map_app. simpl map at 2.
  apply last_snoc.
Qed.

(** ** C10: the pending message always reaches the speaker *)

(** C10.  After the research phase and any number [k] of completed rounds
    (none: the seed message is pending; otherwise the previous speaker's
    response), the pending message is addressed to the speaker whose turn it
    is: the seed goes to the Principal, who speaks first, and under the wiring
    Principal→{John, Mom}, John→{Mom, Principal}, Mom→{Principal, John} every
    response names the next speaker of the rotation.  So the speaker's news
    contains the message, its observation count is not 0, and [Role.run] never
    comes back with [None]. *)
Theorem pending_message_is_observable E src idea tr0 School Student Parent
    research_log tr1 k s tr :
  research_phase E idea School0 Student0 Parent0 tr0
    = (Ok (School, Student, Parent, research_log), tr1) ->
  debate_rounds E src k (initial_session idea School Student Parent) tr1
    = (Ok s, tr) ->
  send_to (msg (initial_session idea School Student Parent))
    = {[ name (current_speaker (initial_session idea School Student Parent)) ]}
  ∧ scheduled s
  ∧ name (current_speaker s) ∈ send_to (msg s)
  ∧ msg s ∈ news (rc (observed (current_speaker s) (msg s)))
  ∧ (_observe (put_message (current_speaker s) (msg s))).1 ≠ 0%Z
  ∧ ∀ tr2 d' tr3, run E src (current_speaker s) (msg s) tr2 ≠ (Ok (None, d'), tr3).
Proof.
  intros Hresearch Hrounds.
  destruct (initial_session_scheduled _ _ _ _ _ _ _ _ Hresearch) as (Hs0 & Hname & _).
  destruct (rounds_spec E src _ _ _ _ _ Hs0 Hrounds)
    as (_ & _ & _ & _ & _ & _ & _ & _ & _ & Hs).
  pose proof (incoming_addressed s Hs) as Hin.
  split_and!.
  - simpl. by rewrite Hname.
  - exact Hs.
  - exact Hin.
  - by apply observed_news.
  - by apply observe_count_pos.
  - intros tr2 d' tr3. rewrite (run_addressed E src _ _ tr2 Hin).
    by destruct (aask E tr2 SpeakAloud _).
Qed.

(** Two rounds of the scenario: John is about to answer Mom. *)
Lemma pending_message_is_observable_witness :
  ∃ s, name (current_speaker s) = "John" ∧ sent_from (msg s) = "Mom"
       ∧ name (current_speaker s) ∈ send_to (msg s).
Proof.
  destruct (research_phase scripted smartphones School0 Student0 Parent0 [])
    as [[[[[School Student] Parent] research_log] | e] tr1] eqn:Hresearch;
    [| vm_compute in Hresearch; discriminate].
  destruct (debate_rounds scripted main_py 2
              (initial_session smartphones School Student Parent) tr1)
    as [[s | e] tr] eqn:Hrounds.
  - exists s.
    destruct (pending_message_is_observable scripted main_py smartphones []
                School Student Parent research_log tr1 2 s tr Hresearch Hrounds)
      as (_ & _ & Hin & _).
    vm_compute in Hresearch. injection Hresearch as <- <- <- _ <-.
    vm_compute in Hrounds. injection Hrounds as <- _.
    split; [reflexivity |]. split; [reflexivity | exact Hin].
  - vm_compute in Hresearch. injection Hresearch as <- <- <- _ <-.
    vm_compute in Hrounds. discriminate.
Defined.

(** ** The order of the speakers *)

(** What the tuple assignment of the loop makes of the order: the speakers
    take turns as Principal → Mom → John → Principal.  After the research
    phase and [k] completed rounds, the [k] stored messages (and, in
    [streamlit_debate.py], the [k] log entries) were produced by the speakers
    of the round indices 0 .. k-1, the speaker of index [i] being the
    [(i mod 3)]-th of [rotation], and the speaker whose turn is next is the
    one of index [k]. *)
Theorem speakers_follow_rotation E src idea tr0 School Student Parent
    research_log tr1 k s tr :
  research_phase E idea School0 Student0 Parent0 tr0
    = (Ok (School, Student, Parent, research_log), tr1) ->
  debate_rounds E src k (initial_session idea School Student Parent) tr1
    = (Ok s, tr) ->
  length (all_messages s) = Z.to_nat k
  ∧ map sent_from (all_messages s) = map speaker_of_round (seq 0 (Z.to_nat k))
  ∧ name (current_speaker s) = speaker_of_round (Z.to_nat k)
  ∧ (src = streamlit_debate_py ->
     map LogEntry.speaker (debate_log s)
     = map speaker_of_round (seq 0 (Z.to_nat k))).
Proof.
  intros Hresearch Hrounds.
  destruct (initial_session_scheduled _ _ _ _ _ _ _ _ Hresearch)
    as (Hs0 & HSchool & HStudent & HParent).
  destruct (rounds_spec E src _ _ _ _ _ Hs0 Hrounds)
    as (replies & prompts & Hlr & _ & Hall & _ & Hfrom & Hcur & Hlog & _).
  cbn [initial_session current_speaker second_speaker third_speaker
       all_messages debate_log app] in Hall, Hfrom, Hcur, Hlog.
  rewrite range_length in *. rewrite HSchool, HStudent, HParent in *.
  rewrite turn_names_mod in Hfrom. rewrite last_turn_name in Hcur.
  rewrite Hall. split_and!.
  - exact Hlr.
  - exact Hfrom.
  - by injection Hcur as <-.
  - intros ->. rewrite Hlog.
    change (λ p : Z * Message, log_entry p.1 p.2)
      with (λ p : Z * Message, (λ i, log_entry i p.2) p.1).
    rewrite List.map_map. cbn [log_entry LogEntry.speaker].
    rewrite (map_zip_snd sent_from) by (by rewrite range_length).
    exact Hfrom.
Qed.

(** Four rounds of the scenario: Principal, Mom, John, Principal; Mom next. *)
Lemma speakers_follow_rotation_witness :
  ∃ s, map sent_from (all_messages s) = ["Principal"; "Mom"; "John"; "Principal"]
       ∧ name (current_speaker s) = "Mom".
Proof.
  destruct (research_phase scripted smartphones School0 Student0 Parent0 [])
    as [[[[[School Student] Parent] research_log] | e] tr1] eqn:Hresearch;
    [| vm_compute in Hresearch; discriminate].
  destruct (debate_rounds scripted streamlit_debate_py 4
              (initial_session smartphones School Student Parent) tr1)
    as [[s | e] tr] eqn:Hrounds.
  - exists s.
    destruct (speakers_follow_rotation scripted streamlit_debate_py smartphones []
                School Student Parent research_log tr1 4 s tr Hresearch Hrounds)
      as (_ & Hfrom & Hnext & _).
    split; [exact Hfrom | exact Hnext].
  - vm_compute in Hresearch. injection Hresearch as <- <- <- _ <-.
    vm_compute in Hrounds. discriminate.
Defined.

(** C1 fails on the code.  The session sets up the order Principal, John,
    Mom; the rounds of the scenario are spoken by Principal, Mom, John.  The
    second round goes to the debater that the session calls its
    [third_speaker], and the one it calls [second_speaker] speaks third: in
    the rounds with index 1 and 2 the speaker is not the one that the order
    set up at the start designates. *)
Lemma second_speaker_speaks_third :
  ∃ School Student Parent research_log tr1 s tr,
    research_phase scripted smartphones School0 Student0 Parent0 []
      = (Ok (School, Student, Parent, research_log), tr1)
    ∧ debate_rounds scripted main_py 3
        (initial_session smartphones School Student Parent) tr1
      = (Ok s, tr)
    ∧ session_start_order (initial_session smartphones School Student Parent)
      = ["Principal"; "John"; "Mom"]
    ∧ map sent_from (all_messages s) = ["Principal"; "Mom"; "John"]
    ∧ map (designated_speaker (initial_session smartphones School Student Parent))
          (seq 0 3)
      = ["Principal"; "John"; "Mom"]
    ∧ map sent_from (all_messages s)
      ≠ map (designated_speaker (initial_session smartphones School Student Parent))
            (seq 0 3).
Proof.
  destruct (research_phase scripted smartphones School0 Student0 Parent0 [])
    as [[[[[School Student] Parent] research_log] | e] tr1] eqn:Hresearch;
    [| vm_compute in Hresearch; discriminate].
  destruct (debate_rounds scripted main_py 3
              (initial_session smartphones School Student Parent) tr1)
    as [[s | e] tr] eqn:Hrounds;
    vm_compute in Hresearch; injection Hresearch as <- <- <- <- <-;
    vm_compute in Hrounds; [| discriminate].
  injection Hrounds as <- <-.
  eexists _, _, _, _, _, _, _.
  split; [reflexivity |]. split; [vm_compute; reflexivity |].
  split_and!; try reflexivity. discriminate.
Qed.

(** ** C5: a failing language model ends the session *)

(** C5.  Let the research phase and the rounds 1 .. k-1 of a session of
    [n_round] rounds succeed, and let the language model raise on the question
    of round [k].  Then the session ([debate] in [main.py], [run_debate] in
    [streamlit_debate.py]) ends with that exception.  At that point exactly
    k-1 messages have been collected; the language model has been asked for a
    speech exactly [k] times, the failed question being the last call made (no
    retry, no skipped turn); and neither the evaluator nor the advisor has
    asked anything. *)
Theorem generator_failure_aborts_session E src idea investment n_round k tr0
    School Student Parent research_log tr1 s tr :
  (1 <= k <= n_round)%Z ->
  research_phase E idea School0 Student0 Parent0 tr0
    = (Ok (School, Student, Parent, research_log), tr1) ->
  debate_rounds E src (k - 1) (initial_session idea School Student Parent) tr1
    = (Ok s, tr) ->
  aask E tr SpeakAloud (act_prompt src (observed (current_speaker s) (msg s)))
    = None ->
  let tr' := tr ++ [Aask SpeakAloud
                      (act_prompt src (observed (current_speaker s) (msg s)))] in
  match src with
  | main_py =>
      debate E idea investment n_round tr0 = (Raise (ActionError SpeakAloud), tr')
  | streamlit_debate_py =>
      run_debate E idea n_round tr0 = (Raise (ActionError SpeakAloud), tr')
  end
  ∧ length (all_messages s) = Z.to_nat (k - 1)
  ∧ aask_count SpeakAloud tr' = (aask_count SpeakAloud tr0 + Z.to_nat k)%nat
  ∧ aask_count EvaluateDebate tr' = aask_count EvaluateDebate tr0
  ∧ aask_count ProvideAdvice tr' = aask_count ProvideAdvice tr0.
Proof.
  intros Hk Hresearch Hrounds Hfail tr'.
  destruct (initial_session_scheduled _ _ _ _ _ _ _ _ Hresearch) as (Hs0 & _).
  destruct (rounds_spec E src _ _ _ _ _ Hs0 Hrounds)
    as (replies & prompts & Hlr & Hlp & Hall & Htr & _).
  rewrite range_length in Hlr, Hlp. simpl in Hall.
  assert (Hloop : debate_rounds E src n_round
                    (initial_session idea School Student Parent) tr1
                  = (Raise (ActionError SpeakAloud), tr')).
  { unfold debate_rounds. rewrite (range_split (k - 1) n_round) by lia.
    by apply rounds_fail. }
  split_and!.
  - destruct src.
    + unfold debate. rewrite (bind_Ok _ _ _ _ _ Hresearch).
      by apply bind_Raise.
    + unfold run_debate. rewrite (bind_Ok _ _ _ _ _ Hresearch).
      by apply bind_Raise.
  - by rewrite Hall.
  - subst tr' tr. rewrite !aask_count_app, aask_count_speeches.
    rewrite (research_phase_counts _ _ _ _ _ _ _ _ SpeakAloud ltac:(done) Hresearch).
    rewrite bool_decide_eq_true_2 by done.
    change (aask_count SpeakAloud [Aask SpeakAloud _]) with 1%nat. lia.
  - subst tr' tr. rewrite !aask_count_app, aask_count_speeches.
    rewrite (research_phase_counts _ _ _ _ _ _ _ _ EvaluateDebate ltac:(done) Hresearch).
    rewrite bool_decide_eq_false_2 by done.
    change (aask_count EvaluateDebate [Aask SpeakAloud _]) with 0%nat. lia.
  - subst tr' tr. rewrite !aask_count_app, aask_count_speeches.
    rewrite (research_phase_counts _ _ _ _ _ _ _ _ ProvideAdvice ltac:(done) Hresearch).
    rewrite bool_decide_eq_false_2 by done.
    change (aask_count ProvideAdvice [Aask SpeakAloud _]) with 0%nat. lia.
Qed.

(** The specification's failure scenario: the language model raises on round
    3 of 6. *)
Lemma generator_failure_aborts_session_witness :
  ∃ tr, run_debate third_speech_fails smartphones 6 []
          = (Raise (ActionError SpeakAloud), tr)
        ∧ aask_count SpeakAloud tr = 3%nat
        ∧ aask_count EvaluateDebate tr = 0%nat
        ∧ aask_count ProvideAdvice tr = 0%nat.
Proof.
  destruct (research_phase third_speech_fails smartphones School0 Student0 Parent0 [])
    as [[[[[School Student] Parent] research_log] | e] tr1] eqn:Hresearch;
    [| vm_compute in Hresearch; discriminate].
  destruct (debate_rounds third_speech_fails streamlit_debate_py (3 - 1)
              (initial_session smartphones School Student Parent) tr1)
    as [[s | e] tr] eqn:Hrounds.
  - assert (Hfail : aask third_speech_fails tr SpeakAloud
                      (act_prompt streamlit_debate_py
                         (observed (current_speaker s) (msg s))) = None).
    { vm_compute in Hresearch. injection Hresearch as <- <- <- _ <-.
      vm_compute in Hrounds. injection Hrounds as <- <-.
      vm_compute. reflexivity. }
    assert (Hk : (1 <= 3 <= 6)%Z) by lia.
    destruct (generator_failure_aborts_session third_speech_fails
                streamlit_debate_py smartphones 3.0%float 6 3 []
                School Student Parent research_log tr1 s tr
                Hk Hresearch Hrounds Hfail)
      as (Hrun & _ & Hspeak & Heval & Hadvice).
    eexists. split; [exact Hrun |]. split; [exact Hspeak |].
    split; [exact Heval | exact Hadvice].
  - vm_compute in Hresearch. injection Hresearch as <- <- <- _ <-.
    vm_compute in Hrounds. discriminate.
Defined.

(** ** C7: the pipeline of [run_debate] *)

Lemma _aask_inv E a prompt tr rsp tr' :
  _aask E a prompt tr = (Ok rsp, tr') ->
  aask E tr a prompt = Some rsp ∧ tr' = tr ++ [Aask a prompt].
Proof.
  unfold _aask, call. destruct (aask E tr a prompt); intros H; [| discriminate].
  by injection H as -> ->.
Qed.

Lemma evaluate_inv E topic debate_messages tr evaluation tr' :
  evaluate E topic debate_messages tr = (Ok evaluation, tr') ->
  aask E tr EvaluateDebate
       (EvaluateDebate_prompt topic
          (join (nl +:+ nl)
             (map (λ m, sent_from m +:+ ": " +:+ content m) debate_messages)))
    = Some evaluation
  ∧ tr' = tr ++ [Aask EvaluateDebate
                   (EvaluateDebate_prompt topic
                      (join (nl +:+ nl)
                         (map (λ m, sent_from m +:+ ": " +:+ content m)
                              debate_messages)))].
Proof.
  unfold evaluate, EvaluateDebate_run. intros H.
  apply bind_inv_Ok in H as (rsp & tr1 & Hask & Hret).
  injection Hret as -> ->. by apply _aask_inv.
Qed.

Lemma advise_inv E topic evaluation tr advice tr' :
  advise E topic evaluation tr = (Ok advice, tr') ->
  aask E tr ProvideAdvice (ProvideAdvice_prompt topic evaluation) = Some advice
  ∧ tr' = tr ++ [Aask ProvideAdvice (ProvideAdvice_prompt topic evaluation)].
Proof.
  unfold advise, ProvideAdvice_run. intros H.
  apply bind_inv_Ok in H as (rsp & tr1 & Hask & Hret).
  injection Hret as -> ->. by apply _aask_inv.
Qed.



(** ** C6: a failing researcher *)

(** With link collection down, the first request of the research phase
    raises, and so does the session, in both files, before any speech is asked
    for. *)
Lemma search_down_runs :
  run_debate search_down smartphones 6 []
    = (Raise (ActionError CollectLinks), search_down_trace)
  ∧ debate search_down smartphones 3.0%float 6 []
    = (Raise (ActionError CollectLinks), search_down_trace).
Proof. split; vm_compute; reflexivity. Qed.

(** C6 as stated fails: the language model answers throughout, link
    collection raises, and the session does not return. *)
Lemma evidence_failure_ends_session :
  ¬ evidence_failure_is_not_fatal search_down smartphones 6.
Proof.
  intros H. destruct H as (result & tr' & Hrun).
  - intros tr a prompt. simpl. eauto.
  - rewrite (proj1 search_down_runs) in Hrun. discriminate.
Qed.

(** Every computation of a session only appends to the trace. *)
Lemma emits_aask E a prompt : emits (λ _, True) (_aask E a prompt).
Proof. by apply emits_call. Qed.

Lemma emits_run E src d m : emits (λ _, True) (run E src d m).
Proof.
  unfold run. destruct (_observe (put_message d m)) as [n d'].
  destruct (n =? 0)%Z; [apply emits_ret |].
  apply emits_bind; [| intros [rsp d'']; apply emits_ret].
  unfold _act. apply emits_bind; [apply emits_aask | intros rsp; apply emits_ret].
Qed.

Lemma emits_round_body E src s round_num :
  emits (λ _, True) (round_body E src s round_num).
Proof.
  unfold round_body. apply emits_bind; [apply emits_run |].
  intros [[response |] speaker']; [apply emits_ret | apply emits_raise].
Qed.

Lemma emits_for_each E src xs : ∀ s,
  emits (λ _, True) (for_each (round_body E src) xs s).
Proof.
  induction xs as [| x xs IH]; intros s; simpl; [apply emits_ret |].
  apply emits_bind; [apply emits_round_body | exact IH].
Qed.

Lemma emits_evaluate E topic debate_messages :
  emits (λ _, True) (evaluate E topic debate_messages).
Proof.
  unfold evaluate. apply emits_bind; [apply emits_aask | intros; apply emits_ret].
Qed.

Lemma emits_advise E topic evaluation :
  emits (λ _, True) (advise E topic evaluation).
Proof.
  unfold advise. apply emits_bind; [apply emits_aask | intros; apply emits_ret].
Qed.

(** A call that a computation has made stays the first one after whatever
    follows. *)
Lemma first_event_bind {A B} (m : Eff A) (k : A -> Eff B) tr ev :
  (∀ a, emits (λ _, True) (k a)) ->
  (∃ rest, (m tr).2 = tr ++ ev :: rest) ->
  ∃ rest, ((m ≫= k) tr).2 = tr ++ ev :: rest.
Proof.
  intros Hk [rest Hm]. rewrite bind_unfold.
  destruct (m tr) as [[a | e] t]; simpl in Hm; subst t.
  - destruct (Hk a (tr ++ ev :: rest)) as (added & Htr & _).
    exists (rest ++ added). rewrite Htr, <- app_assoc. reflexivity.
  - by exists rest.
Qed.

(** The round loop of a session of at least one round starts by asking the
    language model for the first speaker's speech. *)
Lemma rounds_ask_first_speaker E src n_round s tr :
  (1 <= n_round)%Z ->
  scheduled s ->
  ∃ rest, (debate_rounds E src n_round s tr).2
          = tr ++ Aask SpeakAloud
                    (act_prompt src (observed (current_speaker s) (msg s))) :: rest.
Proof.
  intros Hn Hs. unfold debate_rounds.
  rewrite (range_split 0 n_round) by lia. simpl.
  apply first_event_bind; [intros s1; apply emits_for_each |].
  exists []. rewrite (round_body_addressed E src s _ tr (incoming_addressed s Hs)).
  by destruct (aask E tr SpeakAloud _).
Qed.

(** C6, amended.  A request below the cap, whose query the language model
    has produced, does what the researcher does: when
    [Researcher.research_topic] returns a report, however short or empty,
    the request returns it, appends the query and the report to
    [research_info] and counts the request; when [research_topic] raises, the
    request raises the same exception and assigns nothing.  The research
    phase is the three debaters' requests in turn: it raises with the first
    request that raises, and it completes when all three return.  When it
    raises, the session raises with it, in [run_debate] as in [debate],
    without a speech having been asked for.  When it completes, a session of
    at least one round proceeds: its next call asks the language model for
    the Principal's first speech, with the ledger that the Principal's
    request has left. *)
Theorem research_outcome_decides_request E d topic tr query :
  (research_count d < max_research d)%Z ->
  aask E tr RequestResearch (RequestResearch_prompt (name d) (profile d) topic)
    = Some query ->
  match research_topic E query
          (tr ++ [Aask RequestResearch
                    (RequestResearch_prompt (name d) (profile d) topic)]) with
  | (Ok report, tr') =>
      request_research E d topic tr
      = (Ok (report,
             with_research d
               (research_info d +:+ nl +:+ nl +:+ "Research Query: " +:+ query
                  +:+ nl +:+ "Research Result: " +:+ report)
               (research_count d + 1)%Z),
         tr')
  | (Raise e, tr') => request_research E d topic tr = (Raise e, tr')
  end
  ∧ (∀ idea tr0,
       match request_research E School0 idea tr0 with
       | (Raise e, tr1) =>
           research_phase E idea School0 Student0 Parent0 tr0 = (Raise e, tr1)
       | (Ok (r1, School), tr1) =>
           match request_research E Student0 idea tr1 with
           | (Raise e, tr2) =>
               research_phase E idea School0 Student0 Parent0 tr0 = (Raise e, tr2)
           | (Ok (r2, Student), tr2) =>
               match request_research E Parent0 idea tr2 with
               | (Raise e, tr3) =>
                   research_phase E idea School0 Student0 Parent0 tr0
                   = (Raise e, tr3)
               | (Ok (r3, Parent), tr3) =>
                   research_phase E idea School0 Student0 Parent0 tr0
                   = (Ok (School, Student, Parent,
                          [ {| ResearchEntry.debater := "Principal";
                               ResearchEntry.research := r1 |};
                            {| ResearchEntry.debater := "John";
                               ResearchEntry.research := r2 |};
                            {| ResearchEntry.debater := "Mom";
                               ResearchEntry.research := r3 |} ]),
                      tr3)
               end
           end
       end)
  ∧ (∀ idea investment n_round tr0 e tr',
       research_phase E idea School0 Student0 Parent0 tr0 = (Raise e, tr') ->
       run_debate E idea n_round tr0 = (Raise e, tr')
       ∧ debate E idea investment n_round tr0 = (Raise e, tr')
       ∧ aask_count SpeakAloud tr' = aask_count SpeakAloud tr0)
  ∧ (∀ idea investment n_round tr0 School Student Parent research_log tr1,
       research_phase E idea School0 Student0 Parent0 tr0
         = (Ok (School, Student, Parent, research_log), tr1) ->
       (1 <= n_round)%Z ->
       research_info
         (observed School (msg (initial_session idea School Student Parent)))
         = research_info School
       ∧ (∃ rest,
            (run_debate E idea n_round tr0).2
            = tr1 ++ Aask SpeakAloud
                       (act_prompt streamlit_debate_py
                          (observed School
                             (msg (initial_session idea School Student Parent))))
                  :: rest)
       ∧ (∃ rest,
            (debate E idea investment n_round tr0).2
            = tr1 ++ Aask SpeakAloud
                       (act_prompt main_py
                          (observed School
                             (msg (initial_session idea School Student Parent))))
                  :: rest)).
Proof.
  intros Hlt Hquery. split_and!.
  - unfold request_research. rewrite Z.geb_leb.
    destruct (Z.leb_spec (max_research d) (research_count d)) as [Hle | _]; [lia |].
    assert (Hask : RequestResearch_run E (name d) (profile d) topic tr
                   = (Ok query,
                      tr ++ [Aask RequestResearch
                               (RequestResearch_prompt (name d) (profile d) topic)])).
    { unfold RequestResearch_run, _aask, call. by rewrite Hquery. }
    rewrite (bind_Ok _ _ _ _ _ Hask).
    destruct (research_topic E query _) as [[report | e] tr'] eqn:Hreport.
    + by rewrite (bind_Ok _ _ _ _ _ Hreport).
    + by apply bind_Raise.
  - intros idea tr0. unfold research_phase.
    destruct (request_research E School0 idea tr0) as [[[r1 School] | e] tr1] eqn:H1;
      [| by apply bind_Raise].
    rewrite (bind_Ok _ _ _ _ _ H1).
    destruct (request_research E Student0 idea tr1) as [[[r2 Student] | e] tr2] eqn:H2;
      [| by apply bind_Raise].
    rewrite (bind_Ok _ _ _ _ _ H2).
    destruct (request_research E Parent0 idea tr2) as [[[r3 Parent] | e] tr3] eqn:H3;
      [| by apply bind_Raise].
    rewrite (bind_Ok _ _ _ _ _ H3).
    apply request_research_wiring in H1 as (-> & _).
    apply request_research_wiring in H2 as (-> & _).
    apply request_research_wiring in H3 as (-> & _).
    reflexivity.
  - intros idea investment n_round tr0 e tr' Hresearch. split_and!.
    + unfold run_debate. by apply bind_Raise.
    + unfold debate. by apply bind_Raise.
    + by apply (research_phase_counts E idea School0 Student0 Parent0 tr0 (Raise e)).
  - intros idea investment n_round tr0 School Student Parent research_log tr1
      Hresearch Hn.
    destruct (initial_session_scheduled _ _ _ _ _ _ _ _ Hresearch) as (Hs0 & _).
    destruct (rounds_ask_first_speaker E streamlit_debate_py n_round _ tr1 Hn Hs0)
      as [rest1 Hrest1].
    destruct (rounds_ask_first_speaker E main_py n_round _ tr1 Hn Hs0)
      as [rest2 Hrest2].
    split_and!.
    + reflexivity.
    + unfold run_debate. rewrite (bind_Ok _ _ _ _ _ Hresearch).
      apply first_event_bind; [| by exists rest1].
      intros s. apply emits_bind; [apply emits_evaluate | intros evaluation].
      apply emits_bind; [apply emits_advise | intros advice; apply emits_ret].
    + unfold debate. rewrite (bind_Ok _ _ _ _ _ Hresearch).
      apply first_event_bind; [| by exists rest2].
      intros s. apply emits_bind; [apply emits_evaluate | intros evaluation].
      apply emits_ret.
Qed.

(** Nothing is found and the report is empty: the Principal's request still
    returns, with the empty report on its ledger. *)
Lemma research_outcome_decides_request_witness :
  request_research nothing_found School0 smartphones []
  = (Ok ("",
         with_research School0
           (nl +:+ nl +:+ "Research Query: query" +:+ nl +:+ "Research Result: ")
           1),
     [Aask RequestResearch (RequestResearch_prompt "Principal" "School" smartphones);
      CollectLinksRun "query" 2 2;
      ConductResearchRun "query" ""]).
Proof.
  assert (Hlt : (research_count School0 < max_research School0)%Z) by (simpl; lia).
  assert (Hquery : aask nothing_found [] RequestResearch
                     (RequestResearch_prompt (name School0) (profile School0) smartphones)
                   = Some "query") by reflexivity.
  destruct (research_outcome_decides_request nothing_found School0 smartphones []
              "query" Hlt Hquery) as [Hrequest _].
  exact Hrequest.
Defined.

(** With nothing found and empty reports for all three debaters, the
    six-round session of the scenario is held and returns. *)
Lemma empty_reports_session_returns :
  ∃ log research_log tr,
    run_debate nothing_found smartphones 6 []
      = (Ok (log, "evaluation", research_log, "advice"), tr)
    ∧ length log = 6%nat
    ∧ map ResearchEntry.research research_log = [""; ""; ""]
    ∧ aask_count SpeakAloud tr = 6%nat.
Proof.
  destruct (run_debate nothing_found smartphones 6 [])
    as [[[[[log evaluation] research_log] advice] | e] tr] eqn:Hrun;
    vm_compute in Hrun; [| discriminate].
  injection Hrun as <- <- <- <- <-.
  eexists _, _, _. split; [reflexivity |]. by vm_compute.
Qed.

(** ** C8: the topic handed to [SpeakAloud.run] *)

(** Where [Debator._act] takes its topic from after [k] rounds: the first
    message in the memory of the speaker whose turn it is.  For the first
    speaker that is the seed, so the topic; for the second speaker it is the
    first speaker's response. *)
Lemma topic_of_first_two_speakers E src idea tr0 School Student Parent
    research_log tr1 s tr :
  research_phase E idea School0 Student0 Parent0 tr0
    = (Ok (School, Student, Parent, research_log), tr1) ->
  debate_rounds E src 1 (initial_session idea School Student Parent) tr1
    = (Ok s, tr) ->
  act_topic (observed School (msg (initial_session idea School Student Parent)))
    = idea
  ∧ name (current_speaker s) = "Mom"
  ∧ sent_from (msg s) = "Principal"
  ∧ act_topic (observed (current_speaker s) (msg s)) = content (msg s).
Proof.
  intros Hresearch Hrounds.
  destruct (initial_session_scheduled _ _ _ _ _ _ _ _ Hresearch)
    as (Hs0 & HSchool & _ & HParent).
  unfold research_phase in Hresearch.
  apply bind_inv_Ok in Hresearch as ([r1 d1] & t1 & H1 & Hresearch).
  apply bind_inv_Ok in Hresearch as ([r2 d2] & t2 & H2 & Hresearch).
  apply bind_inv_Ok in Hresearch as ([r3 d3] & t3 & H3 & Hresearch).
  injection Hresearch as -> -> -> _ _.
  apply request_research_wiring in H1 as (_ & _ & _ & _ & Hrc1).
  apply request_research_wiring in H3 as (_ & _ & _ & _ & Hrc3).
  unfold debate_rounds in Hrounds. change (range 1) with [0%Z] in Hrounds.
  cbn [for_each] in Hrounds.
  apply bind_inv_Ok in Hrounds as (s1 & tr2 & Hround & Hret).
  injection Hret as -> ->.
  rewrite (round_body_addressed E src _ 0 tr1 (incoming_addressed _ Hs0)) in Hround.
  destruct (aask E tr1 SpeakAloud _) as [rsp |]; [| discriminate].
  injection Hround as <- _.
  unfold act_topic, get_memories. rewrite !observed_memory. simpl.
  rewrite Hrc1, Hrc3, HSchool, HParent. by simpl.
Qed.

(** C8, at the scenario with two more rounds than speakers.  The topic is
    "Should schools ban smartphones?".  The Principal is asked to debate it in
    rounds 1 and 4; Mom, in round 2, is asked to debate the text of the
    Principal's first speech, and John, in round 3, the text of Mom's. *)
Lemma later_speakers_debate_the_previous_speech :
  prompts_of SpeakAloud (run_debate scripted smartphones 4 []).2
  = [ SpeakAloud_prompt ("User: " +:+ smartphones)
        "Principal" "John" "Mom" smartphones
        (SpeakAloud_instruction streamlit_debate_py "Principal" "School" 1)
        scripted_research_info;
      SpeakAloud_prompt "Principal: speech 1"
        "Mom" "Principal" "John" "speech 1"
        (SpeakAloud_instruction streamlit_debate_py "Mom" "Parent" 1)
        scripted_research_info;
      SpeakAloud_prompt "Mom: speech 2"
        "John" "Mom" "Principal" "speech 2"
        (SpeakAloud_instruction streamlit_debate_py "John" "Student" 1)
        scripted_research_info;
      SpeakAloud_prompt
        (lines ["User: " +:+ smartphones; "Principal: speech 1"; "John: speech 3"])
        "Principal" "John" "Mom" smartphones
        (SpeakAloud_instruction streamlit_debate_py "Principal" "School" 2)
        scripted_research_info ]
  ∧ "speech 1" ≠ smartphones.
Proof. split; [vm_compute; reflexivity | discriminate]. Qed.

(** ** The turn number is the speaker's own *)

Lemma speaker_turns_observed d m :
  msg_buffer (rc d) = [] -> sent_from m ≠ name d ->
  speaker_turns (observed d m) = speaker_turns d.
Proof.
  intros Hbuf Hfrom. unfold speaker_turns, get_memories.
  rewrite observed_memory, Hbuf. simpl app.
  rewrite filter_app, filter_cons, filter_nil.
  change (name (observed d m)) with (name d).
  destruct (decide (sent_from m = name d)); [done |]. by rewrite app_nil_r.
Qed.

Lemma speaker_turns_replied d rsp :
  speaker_turns (memory_add d (reply_message d rsp)) = (speaker_turns d + 1)%Z.
Proof.
  unfold speaker_turns, get_memories. simpl.
  rewrite filter_app, filter_cons, filter_nil. simpl.
  destruct (decide (name d = name d)); [| done].
  rewrite length_app. simpl. lia.
Qed.

(** A round moves the counts along with the speakers and adds one to the
    count of the one who spoke. *)
Lemma rotate_turns src s round_num rsp current second third :
  turns s current second third ->
  let d' := observed (current_speaker s) (msg s) in
  turns (rotate src s round_num (memory_add d' (reply_message d' rsp))
           (reply_message d' rsp))
        third (current + 1)%Z second.
Proof.
  intros [Hc Hs Ht Hbc Hbs Hbt Hown Hcs Hct Hst] d'. split; simpl; try done.
  rewrite speaker_turns_replied. subst d'.
  by rewrite speaker_turns_observed, Hc.
Qed.

(** After [k] rounds the speaker whose turn it is has spoken [k / 3] times:
    the speakers of the rounds before it were the [k] first of the rotation,
    and every third of them was this one. *)
Lemma session_turns E src idea tr0 School Student Parent research_log tr1 :
  research_phase E idea School0 Student0 Parent0 tr0
    = (Ok (School, Student, Parent, research_log), tr1) ->
  ∀ (k : nat) s tr,
    debate_rounds E src (Z.of_nat k) (initial_session idea School Student Parent) tr1
      = (Ok s, tr) ->
    scheduled s
    ∧ turns s (Z.of_nat k / 3)%Z ((Z.of_nat k + 2) / 3)%Z ((Z.of_nat k + 1) / 3)%Z.
Proof.
  intros Hresearch.
  destruct (initial_session_scheduled _ _ _ _ _ _ _ _ Hresearch)
    as (Hs0 & HSchool & HStudent & HParent).
  destruct (research_phase_wiring _ _ _ _ _ _ _ _ _ _ _ Hresearch)
    as (_ & _ & _ & Hrc1 & Hrc2 & Hrc3).
  induction k as [| k IH]; intros s tr Hrounds.
  - injection Hrounds as <- _. split; [exact Hs0 |].
    split; simpl; unfold speaker_turns, get_memories;
      rewrite ?Hrc1, ?Hrc2, ?Hrc3, ?HSchool, ?HStudent, ?HParent; done.
  - unfold debate_rounds in Hrounds.
    rewrite (range_split (Z.of_nat k) (Z.of_nat (S k))) in Hrounds by lia.
    replace (Z.to_nat (Z.of_nat (S k) - Z.of_nat k - 1)) with 0%nat in Hrounds by lia.
    rewrite for_each_app in Hrounds.
    apply bind_inv_Ok in Hrounds as (sk & trk & Hk & Hround).
    destruct (IH sk trk Hk) as (Hsk & Htk).
    simpl in Hround. apply bind_inv_Ok in Hround as (s1 & tr2 & Hround & Hret).
    injection Hret as -> ->.
    rewrite (round_body_addressed E src sk _ trk (incoming_addressed sk Hsk)) in Hround.
    destruct (aask E trk SpeakAloud _) as [rsp |]; [| discriminate].
    injection Hround as <- _.
    split; [by apply rotate_scheduled |].
    pose proof (rotate_turns src sk (Z.of_nat k) rsp _ _ _ Htk) as Hturns.
    simpl in Hturns.
    replace (Z.of_nat (S k) / 3)%Z with ((Z.of_nat k + 1) / 3)%Z by (f_equal; lia).
    replace ((Z.of_nat (S k) + 2) / 3)%Z with (Z.of_nat k / 3 + 1)%Z
      by (Z.div_mod_to_equations; lia).
    replace ((Z.of_nat (S k) + 1) / 3)%Z with ((Z.of_nat k + 2) / 3)%Z by (f_equal; lia).
    exact Hturns.
Qed.

(** In round [k + 1] of a session, [Debator._act] hands [SpeakAloud.run] the
    speaker's own turn number: one more than the [k / 3] turns it has had. *)
Lemma round_num_is_own_turn_number E src idea tr0 School Student Parent
    research_log tr1 (k : nat) s tr :
  research_phase E idea School0 Student0 Parent0 tr0
    = (Ok (School, Student, Parent, research_log), tr1) ->
  debate_rounds E src (Z.of_nat k) (initial_session idea School Student Parent) tr1
    = (Ok s, tr) ->
  (speaker_turns (observed (current_speaker s) (msg s)) + 1
   = Z.of_nat k / 3 + 1)%Z.
Proof.
  intros Hresearch Hrounds.
  destruct (session_turns E src idea tr0 _ _ _ _ _ Hresearch k s tr Hrounds)
    as (_ & [Hc _ _ Hbuf _ _ Hown _ _ _]).
  by rewrite speaker_turns_observed, Hc.
Qed.

(** * Further properties of the code *)

(** ** [Researcher.research_topic] *)

Lemma call_bind {A B} ev owner (answer : Trace -> option A) (f : A -> Eff B) tr :
  (call ev owner answer ≫= f) tr
  = match answer tr with
    | Some a => f a (tr ++ [ev])
    | None => (Raise (ActionError owner), tr ++ [ev])
    end.
Proof. rewrite bind_unfold. unfold call. by destruct (answer tr). Qed.

Lemma browsed_urls_app tr1 tr2 :
  browsed_urls (tr1 ++ tr2) = browsed_urls tr1 ++ browsed_urls tr2.
Proof. unfold browsed_urls. by rewrite omap_app, List.concat_app. Qed.

Lemma run_count_app a tr1 tr2 :
  run_count a (tr1 ++ tr2) = (run_count a tr1 + run_count a tr2)%nat.
Proof. unfold run_count. by rewrite List.filter_app, List.length_app. Qed.

Lemma run_count_browses a browses :
  a ≠ WebBrowseAndSummarize -> Forall is_browse browses -> run_count a browses = 0%nat.
Proof.
  intros Ha Hall. unfold run_count.
  induction Hall as [| ev browses Hev _ IH]; [reflexivity |].
  destruct ev; try done. simpl. by destruct a.
Qed.

(** The loop of [research_topic], entered with [url_count] URLs already
    browsed: it only browses, never an empty list of URLs, never more than
    the [4 - url_count] URLs that are left; when it completes it has browsed
    the first [4 - url_count] of all the URLs found, in their order, and when
    it raises, the browse that failed was its last call. *)
Lemma browse_links_spec E links : ∀ summaries url_count tr,
  (0 <= url_count <= 4)%Z ->
  ∃ added,
    (browse_links E links summaries url_count tr).2 = tr ++ added
    ∧ Forall is_browse added
    ∧ (length (browsed_urls added) <= Z.to_nat (4 - url_count))%nat
    ∧ match (browse_links E links summaries url_count tr).1 with
      | Ok _ =>
          browsed_urls added
          = take (Z.to_nat (4 - url_count)) (concat (map snd links))
      | Raise e => e = ActionError WebBrowseAndSummarize ∧ added ≠ []
      end.
Proof.
  induction links as [| [query urls] rest IH]; intros summaries url_count tr Hcount.
  - exists []. simpl. rewrite app_nil_r, take_nil. split_and!; auto. lia.
  - cbn [browse_links].
    destruct (bool_decide (urls ≠ []) && (url_count <? 4)%Z) eqn:Hcond.
    + apply andb_true_iff in Hcond as [Hurls Hlt].
      apply bool_decide_eq_true in Hurls. apply Z.ltb_lt in Hlt.
      set (limited := take (Z.to_nat (4 - url_count)) urls).
      assert (Hlimited : limited ≠ []).
      { subst limited. destruct urls as [| u urls]; [done |].
        destruct (Z.to_nat (4 - url_count)) eqn:Hr; [lia | done]. }
      assert (Hlen : (length limited <= Z.to_nat (4 - url_count))%nat).
      { subst limited. rewrite length_take. lia. }
      unfold WebBrowseAndSummarize_run. rewrite call_bind.
      destruct (web_browse E tr limited query) as [result |].
      * destruct (IH (summaries ++ map snd result)
                     (url_count + Z.of_nat (length limited))%Z
                     (tr ++ [WebBrowseRun limited query]) ltac:(lia))
          as (added & Htr & Hall & Hcap & Hout).
        exists (WebBrowseRun limited query :: added).
        rewrite Htr, <- app_assoc. split_and!; [done | by constructor | |].
        -- change (browsed_urls (WebBrowseRun limited query :: added))
             with (limited ++ browsed_urls added).
           rewrite length_app. lia.
        -- destruct (browse_links E rest _ _ _).1; [| split; [tauto | done]].
           change (browsed_urls (WebBrowseRun limited query :: added))
             with (limited ++ browsed_urls added).
           rewrite Hout. simpl concat. rewrite take_app. subst limited.
           f_equal. f_equal. rewrite length_take. lia.
      * exists [WebBrowseRun limited query]. simpl.
        split_and!; [done | by repeat constructor | | done | done].
        change (browsed_urls [WebBrowseRun limited query]) with (limited ++ []).
        rewrite app_nil_r. exact Hlen.
    + destruct (IH summaries url_count tr Hcount) as (added & Htr & Hall & Hcap & Hout).
      exists added. split_and!; try done.
      destruct (browse_links E rest _ _ _).1; [| done].
      rewrite Hout. simpl concat. rewrite take_app.
      apply andb_false_iff in Hcond as [Hurls | Hge].
      * apply bool_decide_eq_false in Hurls.
        destruct urls; [| exfalso; by apply Hurls].
        by rewrite take_nil, Nat.sub_0_r.
      * apply Z.ltb_ge in Hge.
        replace (Z.to_nat (4 - url_count)) with 0%nat by lia. by rewrite !take_0.
Qed.

(** The three ways [research_topic] can go. *)
Lemma research_topic_cases E topic tr :
  match collect_links E tr topic 2 2 with
  | None =>
      research_topic E topic tr
      = (Raise (ActionError CollectLinks), tr ++ [CollectLinksRun topic 2 2])
  | Some links =>
      ∃ browses,
        Forall is_browse browses
        ∧ (length (browsed_urls browses) <= 4)%nat
        ∧ ((∃ summaries,
              browsed_urls browses = take 4 (concat (map snd links))
              ∧ research_topic E topic tr
                = match conduct_research E (tr ++ CollectLinksRun topic 2 2 :: browses)
                          topic (join (nl +:+ "---" +:+ nl) summaries) with
                  | Some report =>
                      (Ok report,
                       tr ++ CollectLinksRun topic 2 2 :: browses
                          ++ [ConductResearchRun topic
                                (join (nl +:+ "---" +:+ nl) summaries)])
                  | None =>
                      (Raise (ActionError ConductResearch),
                       tr ++ CollectLinksRun topic 2 2 :: browses
                          ++ [ConductResearchRun topic
                                (join (nl +:+ "---" +:+ nl) summaries)])
                  end)
           ∨ (browses ≠ []
              ∧ research_topic E topic tr
                = (Raise (ActionError WebBrowseAndSummarize),
                   tr ++ CollectLinksRun topic 2 2 :: browses)))
  end.
Proof.
  unfold research_topic, CollectLinks_run. rewrite call_bind.
  destruct (collect_links E tr topic 2 2) as [links |]; [| reflexivity].
  destruct (browse_links_spec E links [] 0 (tr ++ [CollectLinksRun topic 2 2])
              ltac:(lia)) as (browses & Htr & Hall & Hcap & Hout).
  exists browses. split; [exact Hall |]. split; [exact Hcap |].
  rewrite bind_unfold.
  destruct (browse_links E links [] 0 (tr ++ [CollectLinksRun topic 2 2]))
    as [[summaries | e] trb]; simpl in Htr, Hout; subst trb.
  - left. exists summaries. split; [exact Hout |].
    unfold ConductResearch_run. rewrite call_bind, <- !app_assoc. simpl.
    by destruct (conduct_research E _ topic _).
  - right. destruct Hout as [-> Hne]. split; [exact Hne |].
    by rewrite <- app_assoc.
Qed.

(** X1.  Whatever its collaborators do, [research_topic] first collects links
    for its topic with 2 sub-queries and 2 URLs per query, then only browses,
    each time at least one URL and at most 4 URLs over all its browses, and
    last, if at all, conducts the research on its topic; when it returns a
    report, that last call was made. *)
Theorem research_topic_calls E topic tr :
  ∃ browses tail,
    (research_topic E topic tr).2
      = tr ++ CollectLinksRun topic 2 2 :: browses ++ tail
    ∧ Forall is_browse browses
    ∧ (length (browsed_urls browses) <= 4)%nat
    ∧ (tail = [] ∨ ∃ content, tail = [ConductResearchRun topic content])
    ∧ match (research_topic E topic tr).1 with
      | Ok _ => tail ≠ []
      | Raise _ => True
      end.
Proof.
  pose proof (research_topic_cases E topic tr) as H.
  destruct (collect_links E tr topic 2 2) as [links |].
  - destruct H as (browses & Hall & Hcap & [(summaries & _ & Hrun) | (_ & Hrun)]).
    + exists browses, [ConductResearchRun topic (join (nl +:+ "---" +:+ nl) summaries)].
      rewrite Hrun. destruct (conduct_research E _ topic _); simpl; eauto 10.
    + exists browses, []. rewrite Hrun, app_nil_r. simpl. eauto 10.
  - exists [], []. rewrite H. simpl. eauto 10.
Qed.

(** X2.  When [research_topic] returns a report, the URLs it has browsed are
    the first four of all the URLs that link collection found, in the order
    of the queries and of each query's list (all of them when there are
    fewer than four). *)
Theorem research_topic_browses_first_four E topic tr report tr' :
  research_topic E topic tr = (Ok report, tr') ->
  ∃ links,
    collect_links E tr topic 2 2 = Some links
    ∧ browsed_urls tr' = browsed_urls tr ++ take 4 (concat (map snd links)).
Proof.
  intros Hrun. pose proof (research_topic_cases E topic tr) as H.
  destruct (collect_links E tr topic 2 2) as [links |]; [| congruence].
  exists links. split; [reflexivity |].
  destruct H as (browses & _ & _ & [(summaries & Hurls & H) | (_ & H)]);
    [| congruence].
  rewrite Hrun in H. destruct (conduct_research E _ topic _); [| discriminate].
  injection H as _ ->.
  change (CollectLinksRun topic 2 2 :: browses ++ ?t)
    with ([CollectLinksRun topic 2 2] ++ browses ++ t).
  rewrite !browsed_urls_app, Hurls. simpl. by rewrite app_nil_r.
Qed.

(** A search wider than the one of [scripted] shows the cut. *)
Lemma research_topic_browses_first_four_witness :
  ∃ tr', browsed_urls tr' = ["u1"; "u2"; "u3"; "u4"].
Proof.
  destruct (research_topic wide_search "query" []) as [[report | e] tr'] eqn:Hrun;
    [| vm_compute in Hrun; discriminate].
  exists tr'.
  destruct (research_topic_browses_first_four wide_search "query" [] report tr' Hrun)
    as (links & Hlinks & Hurls).
  injection Hlinks as <-. exact Hurls.
Defined.

(** X3.  When link collection finds no URL at all (no query, or queries with
    empty lists only), [research_topic] browses nothing and conducts the
    research on an empty content; its outcome is that of this one call. *)
Theorem research_topic_without_links E topic tr links :
  collect_links E tr topic 2 2 = Some links ->
  Forall (λ found, found.2 = []) links ->
  research_topic E topic tr
  = match conduct_research E (tr ++ [CollectLinksRun topic 2 2]) topic "" with
    | Some report =>
        (Ok report,
         tr ++ [CollectLinksRun topic 2 2; ConductResearchRun topic ""])
    | None =>
        (Raise (ActionError ConductResearch),
         tr ++ [CollectLinksRun topic 2 2; ConductResearchRun topic ""])
    end.
Proof.
  intros Hlinks Hempty.
  assert (Hloop : ∀ summaries url_count tr1,
            browse_links E links summaries url_count tr1 = (Ok summaries, tr1)).
  { clear Hlinks.
    induction Hempty as [| [query urls] rest Hurls _ IH]; intros; [reflexivity |].
    simpl in Hurls. subst urls. cbn [browse_links].
    rewrite bool_decide_eq_false_2 by (intros Hne; by apply Hne).
    apply IH. }
  unfold research_topic, CollectLinks_run. rewrite call_bind, Hlinks.
  rewrite (bind_Ok _ _ _ _ _ (Hloop [] 0%Z _)).
  unfold ConductResearch_run. rewrite call_bind, <- !app_assoc. simpl.
  by destruct (conduct_research E _ topic _).
Qed.

Lemma research_topic_without_links_witness :
  research_topic nothing_found "query" []
  = (Ok "", [CollectLinksRun "query" 2 2; ConductResearchRun "query" ""]).
Proof.
  assert (Hlinks : collect_links nothing_found [] "query" 2 2 = Some []) by reflexivity.
  assert (Hempty : Forall (λ found : string * list string, found.2 = []) [])
    by constructor.
  exact (research_topic_without_links nothing_found "query" [] [] Hlinks Hempty).
Defined.

(** X4.  When [research_topic] raises, one of its three actions has raised,
    and the call that raised is the last one made: nothing is retried and
    nothing is run after it.  In particular the research is not conducted
    after a failed link collection or a failed browse. *)
Theorem research_topic_failure E topic tr e tr' :
  research_topic E topic tr = (Raise e, tr') ->
  ∃ a before ev,
    e = ActionError a
    ∧ a ∈ [CollectLinks; WebBrowseAndSummarize; ConductResearch]
    ∧ tr' = before ++ [ev]
    ∧ run_count a [ev] = 1%nat
    ∧ (a ≠ ConductResearch ->
       run_count ConductResearch tr' = run_count ConductResearch tr).
Proof.
  intros Hrun. pose proof (research_topic_cases E topic tr) as H.
  destruct (collect_links E tr topic 2 2) as [links |].
  - destruct H as (browses & Hall & _ & [(summaries & _ & H) | (Hne & H)]);
      rewrite Hrun in H.
    + destruct (conduct_research E _ topic _); [discriminate |].
      injection H as -> ->.
      exists ConductResearch, (tr ++ CollectLinksRun topic 2 2 :: browses),
        (ConductResearchRun topic (join (nl +:+ "---" +:+ nl) summaries)).
      split_and!; try done.
      * rewrite !elem_of_cons. auto.
      * by rewrite <- app_assoc.
    + injection H as -> ->.
      destruct browses as [| b browses _] using rev_ind; [done |].
      exists WebBrowseAndSummarize, (tr ++ CollectLinksRun topic 2 2 :: browses), b.
      apply Forall_app in Hall as [Hall Hb]. apply List.Forall_inv in Hb.
      split_and!; try done.
      * rewrite !elem_of_cons. auto.
      * by rewrite <- app_assoc.
      * destruct b; simpl in Hb; done.
      * intros _.
        change (CollectLinksRun topic 2 2 :: browses ++ [b])
          with ([CollectLinksRun topic 2 2] ++ browses ++ [b]).
        rewrite !run_count_app.
        rewrite (run_count_browses ConductResearch browses) by done.
        rewrite (run_count_browses ConductResearch [b]) by (by repeat constructor).
        change (run_count ConductResearch [CollectLinksRun topic 2 2]) with 0%nat. lia.
  - rewrite Hrun in H. injection H as -> ->.
    exists CollectLinks, tr, (CollectLinksRun topic 2 2).
    split_and!; try done.
    + rewrite !elem_of_cons. auto.
    + intros _. rewrite run_count_app.
      change (run_count ConductResearch [CollectLinksRun topic 2 2]) with 0%nat. lia.
Qed.

(** Link collection is down. *)
Lemma research_topic_failure_witness :
  ∃ e tr', research_topic search_down "query" [] = (Raise e, tr')
           ∧ run_count ConductResearch tr' = 0%nat.
Proof.
  destruct (research_topic search_down "query" []) as [[report | e] tr'] eqn:Hrun;
    [vm_compute in Hrun; discriminate |].
  exists e, tr'. split; [reflexivity |].
  destruct (research_topic_failure search_down "query" [] e tr' Hrun)
    as (a & before & ev & He & _ & _ & _ & Hnot).
  assert (Ha : a ≠ ConductResearch).
  { vm_compute in Hrun. injection Hrun as <- _. injection He as <-. done. }
  exact (Hnot Ha).
Defined.

(** ** [Debator.request_research] and the research phase *)

Lemma append_assoc (a b c : string) : (a +:+ b) +:+ c = a +:+ b +:+ c.
Proof.
  induction a as [| x a IH]; [reflexivity |].
  change (String x ((a +:+ b) +:+ c) = String x (a +:+ b +:+ c)). by f_equal.
Qed.

Lemma append_nil_r (a : string) : a +:+ "" = a.
Proof.
  induction a as [| x a IH]; [reflexivity |].
  change (String x (a +:+ "") = String x a). by f_equal.
Qed.

(** X5.  The research ledger is append-only, and requests touch nothing
    else: after any sequence of [request_research] calls the debator's
    [research_info] is what it was followed by what was appended, nothing
    being appended unless [research_count] went up; its name, profile,
    opponents, cap and role context are what they were. *)
Theorem research_info_only_grows E d0 d :
  after_requests E d0 d ->
  (∃ appended, research_info d = research_info d0 +:+ appended
               ∧ (research_count d = research_count d0 -> appended = ""))
  ∧ (research_count d0 <= research_count d)%Z
  ∧ name d = name d0 ∧ profile d = profile d0
  ∧ opponent_name1 d = opponent_name1 d0 ∧ opponent_name2 d = opponent_name2 d0
  ∧ max_research d = max_research d0 ∧ rc d = rc d0.
Proof.
  induction 1 as [| d topic tr result d' tr' _ IH Hstep].
  - split; [| by split_and!; try lia]. exists "". by rewrite append_nil_r.
  - destruct IH as ((appended & Hinfo & Hsame) & Hmono & Hn & Hp & H1 & H2 & Hmax & Hrc).
    destruct (request_research_wiring _ _ _ _ _ _ _ Hstep) as (Hn' & Hp' & H1' & H2' & Hrc').
    destruct (request_research_keeps_cap _ _ _ _ _ _ _ Hstep) as (Hmax' & Hmono' & _).
    split; [| split_and!; try congruence; lia].
    destruct (Z_lt_ge_dec (research_count d) (max_research d)) as [Hlt | Hge].
    + destruct (request_research_granted _ _ _ _ _ _ _ Hlt Hstep) as [query ->].
      cbn [research_info research_count with_research].
      exists (appended +:+ research_block query result).
      split; [by rewrite Hinfo, append_assoc | lia].
    + rewrite (request_research_refused E d topic tr Hge) in Hstep.
      injection Hstep as _ <- _. by exists appended.
Qed.

(** The Principal after its request of the research phase. *)
Lemma research_info_only_grows_witness :
  ∃ d, after_requests scripted School0 d
       ∧ research_info d = "" +:+ research_block "query" "report"
       ∧ name d = "Principal".
Proof.
  destruct (request_research scripted School0 smartphones []) as [[[r d] | e] tr] eqn:Hreq;
    [| vm_compute in Hreq; discriminate].
  exists d.
  assert (Hafter : after_requests scripted School0 d).
  { eapply requests_more; [apply requests_none | exact Hreq]. }
  destruct (research_info_only_grows scripted School0 d Hafter)
    as (_ & _ & Hname & _).
  split; [exact Hafter |]. split; [| exact Hname].
  vm_compute in Hreq. injection Hreq as _ Hd _. by subst d.
Defined.

Lemma aask_count_browses a browses :
  Forall is_browse browses -> aask_count a browses = 0%nat.
Proof.
  intros Hall. unfold aask_count.
  induction Hall as [| ev browses Hev _ IH]; [reflexivity |]. by destruct ev.
Qed.

(** What a granted request adds to the trace: one question of
    [RequestResearch], one link collection and one conducted research. *)
Lemma request_research_granted_counts E d topic tr result d' tr' :
  (research_count d < max_research d)%Z ->
  request_research E d topic tr = (Ok (result, d'), tr') ->
  aask_count RequestResearch tr' = S (aask_count RequestResearch tr)
  ∧ run_count CollectLinks tr' = S (run_count CollectLinks tr)
  ∧ run_count ConductResearch tr' = S (run_count ConductResearch tr).
Proof.
  intros Hlt. unfold request_research. rewrite Z.geb_leb.
  destruct (Z.leb_spec (max_research d) (research_count d)) as [Hle | _]; [lia |].
  unfold RequestResearch_run, _aask. rewrite call_bind.
  destruct (aask E tr RequestResearch _) as [query |]; [| discriminate].
  intros H. apply bind_inv_Ok in H as (report & tr2 & Hreport & H).
  injection H as _ _ ->.
  pose proof (research_topic_cases E query
                (tr ++ [Aask RequestResearch
                          (RequestResearch_prompt (name d) (profile d) topic)])) as Hc.
  destruct (collect_links E _ query 2 2) as [links |]; [| congruence].
  destruct Hc as (browses & Hall & _ & [(summaries & _ & Hc) | (_ & Hc)]);
    [| congruence].
  rewrite Hreport in Hc. destruct (conduct_research E _ query _); [| discriminate].
  injection Hc as _ ->.
  change (CollectLinksRun query 2 2 :: browses ++ ?t)
    with ([CollectLinksRun query 2 2] ++ browses ++ t).
  rewrite !aask_count_app, !run_count_app, (aask_count_browses _ browses Hall).
  rewrite !(run_count_browses _ browses) by done.
  split_and!.
  - change (aask_count RequestResearch [Aask RequestResearch _]) with 1%nat.
    change (aask_count RequestResearch [CollectLinksRun _ _ _]) with 0%nat.
    change (aask_count RequestResearch [ConductResearchRun _ _]) with 0%nat. lia.
  - change (run_count CollectLinks [Aask RequestResearch _]) with 0%nat.
    change (run_count CollectLinks [CollectLinksRun _ _ _]) with 1%nat.
    change (run_count CollectLinks [ConductResearchRun _ _]) with 0%nat. lia.
  - change (run_count ConductResearch [Aask RequestResearch _]) with 0%nat.
    change (run_count ConductResearch [CollectLinksRun _ _ _]) with 0%nat.
    change (run_count ConductResearch [ConductResearchRun _ _]) with 1%nat. lia.
Qed.

(** X6.  A research phase that completes has served each debater exactly
    once, in the order Principal, John, Mom: the log has their three entries
    in that order; each debater's ledger holds one block, with its query and
    the result logged for it, and its count is 1; three queries were
    generated, links were collected three times and research was conducted
    three times; and from then on every request of any of the three is
    refused without a call. *)
Theorem research_phase_serves_each_once E idea tr School Student Parent
    research_log tr' :
  research_phase E idea School0 Student0 Parent0 tr
    = (Ok (School, Student, Parent, research_log), tr') ->
  map ResearchEntry.debater research_log = ["Principal"; "John"; "Mom"]
  ∧ Forall2 (λ d entry,
       research_count d = 1%Z
       ∧ ∃ query, research_info d
                  = research_block query (ResearchEntry.research entry))
      [School; Student; Parent] research_log
  ∧ aask_count RequestResearch tr' = (aask_count RequestResearch tr + 3)%nat
  ∧ run_count CollectLinks tr' = (run_count CollectLinks tr + 3)%nat
  ∧ run_count ConductResearch tr' = (run_count ConductResearch tr + 3)%nat
  ∧ ∀ d, d ∈ [School; Student; Parent] ->
      ∀ topic tr2,
        request_research E d topic tr2 = (Ok ("Research limit reached", d), tr2).
Proof.
  unfold research_phase. intros H.
  apply bind_inv_Ok in H as ([r1 d1] & tr1 & H1 & H).
  apply bind_inv_Ok in H as ([r2 d2] & tr2 & H2 & H).
  apply bind_inv_Ok in H as ([r3 d3] & tr3 & H3 & H).
  injection H as -> -> -> <- ->.
  assert (Hlt1 : (research_count School0 < max_research School0)%Z) by (simpl; lia).
  assert (Hlt2 : (research_count Student0 < max_research Student0)%Z) by (simpl; lia).
  assert (Hlt3 : (research_count Parent0 < max_research Parent0)%Z) by (simpl; lia).
  destruct (request_research_granted_counts _ _ _ _ _ _ _ Hlt1 H1) as (Ha1 & Hc1 & Hr1).
  destruct (request_research_granted_counts _ _ _ _ _ _ _ Hlt2 H2) as (Ha2 & Hc2 & Hr2).
  destruct (request_research_granted_counts _ _ _ _ _ _ _ Hlt3 H3) as (Ha3 & Hc3 & Hr3).
  destruct (request_research_granted _ _ _ _ _ _ _ Hlt1 H1) as [q1 ->].
  destruct (request_research_granted _ _ _ _ _ _ _ Hlt2 H2) as [q2 ->].
  destruct (request_research_granted _ _ _ _ _ _ _ Hlt3 H3) as [q3 ->].
  split_and!; try lia.
  - reflexivity.
  - repeat constructor; by eexists.
  - intros d Hd topic tr4. apply request_research_refused.
    rewrite !elem_of_cons, elem_of_nil in Hd.
    destruct Hd as [-> | [-> | [-> | []]]]; simpl; lia.
Qed.

(** The research phase of the scenario; the Principal asks once more. *)
Lemma research_phase_serves_each_once_witness :
  ∃ School, research_count School = 1%Z
            ∧ request_research scripted School "again" []
              = (Ok ("Research limit reached", School), []).
Proof.
  destruct (research_phase scripted smartphones School0 Student0 Parent0 [])
    as [[[[[School Student] Parent] research_log] | e] tr1] eqn:Hresearch;
    [| vm_compute in Hresearch; discriminate].
  exists School.
  destruct (research_phase_serves_each_once scripted smartphones [] School Student
              Parent research_log tr1 Hresearch) as (_ & Hall & _ & _ & _ & Hrefused).
  split.
  - inversion Hall as [| ? ? ? ? [Hcount _] _]. exact Hcount.
  - apply Hrefused. apply elem_of_cons. by left.
Defined.

(** ** The rotation, round after round *)

(** A property of sessions that every round keeps is kept by the loop. *)
Lemma rounds_invariant E src (I : Session -> Prop) :
  (∀ s round_num rsp,
     scheduled s -> I s ->
     I (rotate src s round_num
          (memory_add (observed (current_speaker s) (msg s))
             (reply_message (observed (current_speaker s) (msg s)) rsp))
          (reply_message (observed (current_speaker s) (msg s)) rsp))) ->
  ∀ xs s tr s' tr',
    scheduled s -> I s ->
    for_each (round_body E src) xs s tr = (Ok s', tr') -> I s'.
Proof.
  intros Hstep. induction xs as [| x xs IH]; intros s tr s' tr' Hs HI Hrun.
  - by injection Hrun as <- _.
  - simpl in Hrun. apply bind_inv_Ok in Hrun as (s1 & tr1 & Hround & Hrest).
    rewrite (round_body_addressed E src s x tr (incoming_addressed s Hs)) in Hround.
    destruct (aask E tr SpeakAloud _) as [rsp |]; [| discriminate].
    injection Hround as <- <-.
    eapply IH; [| | exact Hrest].
    + by apply rotate_scheduled.
    + by apply Hstep.
Qed.

Lemma same_but_rc_fields d0 d :
  same_but_rc d0 d ->
  name d = name d0 ∧ profile d = profile d0
  ∧ opponent_name1 d = opponent_name1 d0 ∧ opponent_name2 d = opponent_name2 d0
  ∧ research_info d = research_info d0 ∧ research_count d = research_count d0
  ∧ max_research d = max_research d0.
Proof. unfold same_but_rc. intros <-. by split_and!. Qed.

Lemma wired_reply_addressed d rsp :
  wired d -> addressed_to_the_others (reply_message d rsp).
Proof.
  unfold wired, addressed_to_the_others. rewrite !elem_of_cons, elem_of_nil.
  intros [H | [H | [H | []]]]; injection H as Hn _ H1 H2; simpl;
    rewrite Hn, H1, H2; by vm_compute.
Qed.

Lemma research_phase_wired E idea tr School Student Parent research_log tr' :
  research_phase E idea School0 Student0 Parent0 tr
    = (Ok (School, Student, Parent, research_log), tr') ->
  Forall wired [School; Student; Parent].
Proof.
  unfold research_phase. intros H.
  apply bind_inv_Ok in H as ([r1 d1] & tr1 & H1 & H).
  apply bind_inv_Ok in H as ([r2 d2] & tr2 & H2 & H).
  apply bind_inv_Ok in H as ([r3 d3] & tr3 & H3 & H).
  injection H as -> -> -> _ _.
  apply request_research_wiring in H1 as (n1 & p1 & a1 & b1 & _).
  apply request_research_wiring in H2 as (n2 & p2 & a2 & b2 & _).
  apply request_research_wiring in H3 as (n3 & p3 & a3 & b3 & _).
  rewrite !Forall_cons, Forall_nil. unfold wired.
  rewrite n1, p1, a1, b1, n2, p2, a2, b2, n3, p3, a3, b3. simpl.
  rewrite !elem_of_cons. auto 10.
Qed.

(** The rounds keep the speakers and address every message to the two
    others. *)
Lemma session_in_debate E src idea tr0 School Student Parent research_log tr1 k s tr :
  research_phase E idea School0 Student0 Parent0 tr0
    = (Ok (School, Student, Parent, research_log), tr1) ->
  debate_rounds E src k (initial_session idea School Student Parent) tr1
    = (Ok s, tr) ->
  in_debate School Student Parent s.
Proof.
  intros Hresearch Hrounds.
  destruct (initial_session_scheduled _ _ _ _ _ _ _ _ Hresearch) as (Hs0 & _).
  pose proof (research_phase_wired _ _ _ _ _ _ _ _ Hresearch) as Hwired.
  eapply (rounds_invariant E src (in_debate School Student Parent));
    [| exact Hs0 | | exact Hrounds].
  - intros s1 round_num rsp _ [Hkept Hmessages].
    apply Forall_cons in Hkept as [Hc Hkept].
    apply Forall_cons in Hkept as [Hsnd Hkept].
    apply Forall_cons in Hkept as [Hthird _].
    split; simpl.
    + rewrite !Forall_cons, Forall_nil. by split_and!.
    + apply Forall_app. split; [exact Hmessages |]. constructor; [| constructor].
      destruct Hc as (d0 & Hd0 & Hsame).
      apply wired_reply_addressed.
      rewrite Forall_forall in Hwired. specialize (Hwired d0 Hd0).
      destruct (same_but_rc_fields d0 _ Hsame) as (Hn & Hp & H1 & H2 & _).
      unfold wired in *. simpl. by rewrite Hn, Hp, H1, H2.
  - split; simpl; [| constructor].
    rewrite !Forall_cons, Forall_nil. split_and!; [| | | done].
    + exists School. split; [rewrite !elem_of_cons; auto | by destruct School].
    + exists Student. split; [rewrite !elem_of_cons; auto | by destruct Student].
    + exists Parent. split; [rewrite !elem_of_cons; auto | by destruct Parent].
Qed.

(** X7.  Every message a session produces goes to exactly the two
    participants other than its sender: its recipients are
    {Principal, John, Mom} without the sender, two names, never the sender
    itself, and it is tagged as caused by [SpeakAloud]. *)
Theorem messages_go_to_the_two_others E src idea tr0 School Student Parent
    research_log tr1 k s tr :
  research_phase E idea School0 Student0 Parent0 tr0
    = (Ok (School, Student, Parent, research_log), tr1) ->
  debate_rounds E src k (initial_session idea School Student Parent) tr1
    = (Ok s, tr) ->
  Forall (λ m, addressed_to_the_others m
               ∧ (sent_from m ∉ send_to m)
               ∧ size (send_to m) = 2%nat)
         (all_messages s).
Proof.
  intros Hresearch Hrounds.
  destruct (session_in_debate _ _ _ _ _ _ _ _ _ _ _ _ Hresearch Hrounds)
    as [_ Hmessages].
  eapply Forall_impl; [exact Hmessages |].
  intros m Hm. split; [exact Hm |].
  destruct Hm as (Hfrom & Hto & _). rewrite Hto.
  unfold participants in *.
  rewrite !elem_of_union, !elem_of_singleton in Hfrom.
  destruct Hfrom as [[-> | ->] | ->]; by vm_compute.
Qed.

(** Three rounds of the scenario. *)
Lemma messages_go_to_the_two_others_witness :
  ∃ s, map send_to (all_messages s)
       = [ {[ "John"; "Mom" ]}; {[ "Principal"; "John" ]}; {[ "Mom"; "Principal" ]} ]
       ∧ Forall (λ m, sent_from m ∉ send_to m) (all_messages s).
Proof.
  destruct (research_phase scripted smartphones School0 Student0 Parent0 [])
    as [[[[[School Student] Parent] research_log] | e] tr1] eqn:Hresearch;
    [| vm_compute in Hresearch; discriminate].
  destruct (debate_rounds scripted main_py 3
              (initial_session smartphones School Student Parent) tr1)
    as [[s | e] tr] eqn:Hrounds.
  - exists s. split.
    + vm_compute in Hresearch. injection Hresearch as <- <- <- _ <-.
      vm_compute in Hrounds. injection Hrounds as <- _. reflexivity.
    + eapply Forall_impl;
        [exact (messages_go_to_the_two_others scripted main_py smartphones []
                  School Student Parent research_log tr1 3 s tr Hresearch Hrounds) |].
      by intros m (_ & Hnot & _).
  - vm_compute in Hresearch. injection Hresearch as <- <- <- _ <-.
    vm_compute in Hrounds. discriminate.
Defined.

Lemma research_phase_counts_one E idea tr School Student Parent research_log tr' :
  research_phase E idea School0 Student0 Parent0 tr
    = (Ok (School, Student, Parent, research_log), tr') ->
  Forall (λ d, research_count d = 1%Z ∧ max_research d = 1%Z)
         [School; Student; Parent].
Proof.
  unfold research_phase. intros H.
  apply bind_inv_Ok in H as ([r1 d1] & tr1 & H1 & H).
  apply bind_inv_Ok in H as ([r2 d2] & tr2 & H2 & H).
  apply bind_inv_Ok in H as ([r3 d3] & tr3 & H3 & H).
  injection H as -> -> -> _ _.
  apply request_research_granted in H1 as [q1 ->]; [| simpl; lia].
  apply request_research_granted in H2 as [q2 ->]; [| simpl; lia].
  apply request_research_granted in H3 as [q3 ->]; [| simpl; lia].
  rewrite !Forall_cons, Forall_nil. by split_and!.
Qed.

Lemma run_count_speeches a prompts :
  run_count a (map (Aask SpeakAloud) prompts) = 0%nat.
Proof.
  unfold run_count. induction prompts as [| p prompts IH]; [reflexivity | exact IH].
Qed.

(** X8.  The rotation never goes back to research.  After any number of
    rounds each of the three speakers still has the ledger and the count
    (1, the cap) that the research phase left to one of the debaters, each
    would be refused a further request, and the rounds have run none of the
    researcher's actions and generated no research query. *)
Theorem rotation_does_no_research E src idea tr0 School Student Parent
    research_log tr1 k s tr :
  research_phase E idea School0 Student0 Parent0 tr0
    = (Ok (School, Student, Parent, research_log), tr1) ->
  debate_rounds E src k (initial_session idea School Student Parent) tr1
    = (Ok s, tr) ->
  Forall (λ d,
      (∃ d0, d0 ∈ [School; Student; Parent]
             ∧ name d = name d0 ∧ research_info d = research_info d0)
      ∧ research_count d = 1%Z ∧ max_research d = 1%Z
      ∧ ∀ topic tr2,
          request_research E d topic tr2 = (Ok ("Research limit reached", d), tr2))
    [current_speaker s; second_speaker s; third_speaker s]
  ∧ (∀ a, run_count a tr = run_count a tr1)
  ∧ aask_count RequestResearch tr = aask_count RequestResearch tr1.
Proof.
  intros Hresearch Hrounds.
  destruct (session_in_debate _ _ _ _ _ _ _ _ _ _ _ _ Hresearch Hrounds)
    as [Hkept _].
  pose proof (research_phase_counts_one _ _ _ _ _ _ _ _ Hresearch) as Hone.
  destruct (initial_session_scheduled _ _ _ _ _ _ _ _ Hresearch) as (Hs0 & _).
  destruct (rounds_spec E src _ _ _ _ _ Hs0 Hrounds)
    as (_ & prompts & _ & _ & _ & -> & _).
  split_and!.
  - eapply Forall_impl; [exact Hkept |].
    intros d (d0 & Hd0 & Hsame).
    destruct (same_but_rc_fields d0 d Hsame) as (Hn & _ & _ & _ & Hinfo & Hcount & Hmax).
    rewrite Forall_forall in Hone. destruct (Hone d0 Hd0) as [Hc0 Hm0].
    split_and!; [by exists d0 | congruence | congruence |].
    intros topic tr2. apply request_research_refused. lia.
  - intros a. rewrite run_count_app, run_count_speeches. lia.
  - rewrite aask_count_app, aask_count_speeches.
    rewrite bool_decide_eq_false_2 by done. lia.
Qed.

(** Five rounds of the scenario, then the speaker whose turn it is asks for
    research. *)
Lemma rotation_does_no_research_witness :
  ∃ s, request_research scripted (current_speaker s) "again" []
       = (Ok ("Research limit reached", current_speaker s), []).
Proof.
  destruct (research_phase scripted smartphones School0 Student0 Parent0 [])
    as [[[[[School Student] Parent] research_log] | e] tr1] eqn:Hresearch;
    [| vm_compute in Hresearch; discriminate].
  destruct (debate_rounds scripted streamlit_debate_py 5
              (initial_session smartphones School Student Parent) tr1)
    as [[s | e] tr] eqn:Hrounds.
  - exists s.
    destruct (rotation_does_no_research scripted streamlit_debate_py smartphones []
                School Student Parent research_log tr1 5 s tr Hresearch Hrounds)
      as (Hall & _).
    apply List.Forall_inv in Hall as (_ & _ & _ & Hrefused). apply Hrefused.
  - vm_compute in Hresearch. injection Hresearch as <- <- <- _ <-.
    vm_compute in Hrounds. discriminate.
Defined.

(** X9.  The opening phase lasts nine rounds of the session.  In round
    [k + 1] the speaker is handed [k / 3 + 1] as its round number, its own
    turn number, so the prompt of each of the first nine rounds carries the
    opening instruction, and the prompt of every later round the rebuttal
    instruction. *)
Theorem opening_phase_lasts_nine_rounds E src idea tr0 School Student Parent
    research_log tr1 (k : nat) s tr :
  research_phase E idea School0 Student0 Parent0 tr0
    = (Ok (School, Student, Parent, research_log), tr1) ->
  debate_rounds E src (Z.of_nat k) (initial_session idea School Student Parent) tr1
    = (Ok s, tr) ->
  let d := observed (current_speaker s) (msg s) in
  (speaker_turns d + 1 = Z.of_nat k / 3 + 1)%Z
  ∧ act_prompt src d
    = SpeakAloud_prompt (act_context d) (name d) (opponent_name1 d)
        (opponent_name2 d) (act_topic d)
        (if (k <? 9)%nat
         then opening_instruction src (profile d) (Z.of_nat k / 3 + 1)
         else rebuttal_instruction src (name d) (Z.of_nat k / 3 + 1))
        (research_info d).
Proof.
  intros Hresearch Hrounds d.
  destruct (session_turns E src idea tr0 _ _ _ _ _ Hresearch k s tr Hrounds)
    as (_ & [Hc _ _ Hbuf _ _ Hown _ _ _]).
  assert (Hturns : (speaker_turns d + 1 = Z.of_nat k / 3 + 1)%Z).
  { subst d. by rewrite speaker_turns_observed, Hc. }
  split; [exact Hturns |].
  unfold act_prompt, SpeakAloud_instruction. rewrite Hturns.
  destruct (Nat.ltb_spec k 9) as [Hlt | Hge];
    destruct (Z.leb_spec (Z.of_nat k / 3 + 1) 3) as [Hle | Hgt];
    try reflexivity; exfalso; Z.div_mod_to_equations; lia.
Qed.

(** The tenth round of the scenario is the Principal's fourth turn. *)
Lemma opening_phase_lasts_nine_rounds_witness :
  ∃ s, (speaker_turns (observed (current_speaker s) (msg s)) + 1 = 4)%Z
       ∧ name (current_speaker s) = "Principal".
Proof.
  destruct (research_phase scripted smartphones School0 Student0 Parent0 [])
    as [[[[[School Student] Parent] research_log] | e] tr1] eqn:Hresearch;
    [| vm_compute in Hresearch; discriminate].
  destruct (debate_rounds scripted streamlit_debate_py (Z.of_nat 9)
              (initial_session smartphones School Student Parent) tr1)
    as [[s | e] tr] eqn:Hrounds.
  - exists s.
    destruct (opening_phase_lasts_nine_rounds scripted streamlit_debate_py
                smartphones [] School Student Parent research_log tr1 9 s tr
                Hresearch Hrounds) as (Hturn & _).
    split; [exact Hturn |].
    vm_compute in Hresearch. injection Hresearch as <- <- <- _ <-.
    vm_compute in Hrounds. injection Hrounds as <- _. reflexivity.
  - vm_compute in Hresearch. injection Hresearch as <- <- <- _ <-.
    vm_compute in Hrounds. discriminate.
Defined.

(** ** The entry points *)

(** The speeches of [xs] successful rounds: each stored message is sent by
    the speaker whose turn it is, and its content is what the language model
    answered to that round's question, asked after the questions of the
    rounds before. *)
Lemma rounds_transcript E src xs : ∀ s tr s' tr',
  scheduled s ->
  for_each (round_body E src) xs s tr = (Ok s', tr') ->
  ∃ replies prompts,
    length replies = length xs
    ∧ length prompts = length xs
    ∧ all_messages s' = all_messages s ++ replies
    ∧ tr' = tr ++ map (Aask SpeakAloud) prompts
    ∧ map sent_from replies
      = turn_names (name (current_speaker s)) (name (second_speaker s))
                   (name (third_speaker s)) (length xs)
    ∧ ∀ i p m,
        prompts !! i = Some p -> replies !! i = Some m ->
        aask E (tr ++ map (Aask SpeakAloud) (take i prompts)) SpeakAloud p
        = Some (content m).
Proof.
  induction xs as [| x xs IH]; intros s tr s' tr' Hs Hrun; simpl in Hrun.
  - injection Hrun as <- <-. exists [], []. simpl.
    rewrite !app_nil_r. split_and!; try done.
  - apply bind_inv_Ok in Hrun as (s1 & tr1 & Hround & Hrest).
    rewrite (round_body_addressed E src s x tr (incoming_addressed s Hs)) in Hround.
    set (d' := observed (current_speaker s) (msg s)) in *.
    destruct (aask E tr SpeakAloud (act_prompt src d')) as [rsp |] eqn:Hask;
      [| discriminate].
    injection Hround as <- <-.
    pose proof (rotate_scheduled src s x rsp Hs) as Hs1. fold d' in Hs1.
    destruct (IH _ _ _ _ Hs1 Hrest)
      as (replies & prompts & Hlr & Hlp & Hall & Htr & Hfrom & Hanswers).
    exists (reply_message d' rsp :: replies), (act_prompt src d' :: prompts).
    simpl in Hall, Hfrom |- *.
    rewrite Hlr, Hlp, Hall, Htr, Hfrom, <- !app_assoc.
    split_and!; try done.
    intros [| i] p m Hp Hm; simpl in Hp, Hm.
    + injection Hp as <-. injection Hm as <-. simpl. by rewrite app_nil_r.
    + simpl. specialize (Hanswers i p m Hp Hm).
      by rewrite <- app_assoc in Hanswers.
Qed.

(** X10.  When [debate] of [main.py] returns for a round count [n_round]
    (R rounds), it returns the language model's answer to the one question
    of the evaluator, which is the last call made and carries the topic and
    the R speeches as [speaker: content] blocks joined by blank lines: block
    [i] names the speaker of round [i] in the rotation and holds what the
    language model answered to that round's speech question.  The R speech
    questions follow the research phase, nothing else is asked in between,
    and the advisor of [streamlit_debate.py] is never asked. *)
Theorem debate_pipeline E idea investment n_round tr0 evaluation tr :
  debate E idea investment n_round tr0 = (Ok evaluation, tr) ->
  ∃ before replies,
    length replies = Z.to_nat n_round
    ∧ map sent_from replies = map speaker_of_round (seq 0 (Z.to_nat n_round))
    ∧ tr = before ++
           [Aask EvaluateDebate
              (EvaluateDebate_prompt idea
                 (join (nl +:+ nl)
                    (map (λ m, sent_from m +:+ ": " +:+ content m) replies)))]
    ∧ aask E before EvaluateDebate
           (EvaluateDebate_prompt idea
              (join (nl +:+ nl)
                 (map (λ m, sent_from m +:+ ": " +:+ content m) replies)))
      = Some evaluation
    ∧ aask_count SpeakAloud tr = (aask_count SpeakAloud tr0 + Z.to_nat n_round)%nat
    ∧ aask_count EvaluateDebate tr = S (aask_count EvaluateDebate tr0)
    ∧ aask_count ProvideAdvice tr = aask_count ProvideAdvice tr0
    ∧ ∃ prompts,
        length prompts = Z.to_nat n_round
        ∧ before
          = (research_phase E idea School0 Student0 Parent0 tr0).2
            ++ map (Aask SpeakAloud) prompts
        ∧ ∀ i p m,
            prompts !! i = Some p -> replies !! i = Some m ->
            aask E ((research_phase E idea School0 Student0 Parent0 tr0).2
                    ++ map (Aask SpeakAloud) (take i prompts))
                 SpeakAloud p
            = Some (content m).
Proof.
  intros H. unfold debate in H.
  apply bind_inv_Ok in H as ([[[School Student] Parent] rlog] & tr1 & Hresearch & H).
  apply bind_inv_Ok in H as (s & tr2 & Hrounds & H).
  apply bind_inv_Ok in H as (evaluation' & tr3 & Heval & H).
  injection H as -> ->.
  destruct (initial_session_scheduled _ _ _ _ _ _ _ _ Hresearch)
    as (Hs0 & HSchool & HStudent & HParent).
  destruct (rounds_transcript E _ _ _ _ _ _ Hs0 Hrounds)
    as (replies & prompts & Hlr & Hlp & Hall & Htr & Hfrom & Hanswers).
  rewrite range_length in Hlr, Hlp, Hfrom.
  cbn [initial_session current_speaker second_speaker third_speaker
       all_messages app] in Hall, Hfrom.
  rewrite HSchool, HStudent, HParent, turn_names_mod in Hfrom.
  apply evaluate_inv in Heval as [Heval ->]. rewrite Hall in *.
  exists tr2, replies.
  assert (Hcount : ∀ a, a ≠ RequestResearch ->
            aask_count a tr2
            = (aask_count a tr0
               + if bool_decide (SpeakAloud = a) then Z.to_nat n_round else 0)%nat).
  { intros a Ha. subst tr2. rewrite aask_count_app, aask_count_speeches, Hlp.
    by rewrite (research_phase_counts _ _ _ _ _ _ _ _ a Ha Hresearch). }
  split_and!; try done.
  - rewrite aask_count_app, Hcount by done.
    rewrite bool_decide_eq_true_2 by done.
    change (aask_count SpeakAloud [Aask EvaluateDebate _]) with 0%nat. lia.
  - rewrite aask_count_app, Hcount by done.
    rewrite bool_decide_eq_false_2 by done.
    change (aask_count EvaluateDebate [Aask EvaluateDebate _]) with 1%nat. lia.
  - rewrite aask_count_app, Hcount by done.
    rewrite bool_decide_eq_false_2 by done.
    change (aask_count ProvideAdvice [Aask EvaluateDebate _]) with 0%nat. lia.
  - exists prompts. rewrite Hresearch. simpl. by split_and!.
Qed.

(** Five rounds, the default of [debate]. *)
Lemma debate_pipeline_witness :
  ∃ tr, debate scripted smartphones 3.0%float 5 [] = (Ok "evaluation", tr)
        ∧ aask_count SpeakAloud tr = 5%nat
        ∧ aask_count ProvideAdvice tr = 0%nat.
Proof.
  destruct (debate scripted smartphones 3.0%float 5 [])
    as [[evaluation | e] tr] eqn:Hrun; [| vm_compute in Hrun; discriminate].
  exists tr.
  destruct (debate_pipeline scripted smartphones 3.0%float 5 [] evaluation tr Hrun)
    as (before & replies & _ & _ & _ & _ & Hspeak & _ & Hadvice & _).
  split; [| split; [exact Hspeak | exact Hadvice]].
  vm_compute in Hrun. by injection Hrun as <- _.
Defined.

Lemma range_nonpositive n : (n <= 0)%Z -> range n = [].
Proof. intros Hn. unfold range. by replace (Z.to_nat n) with 0%nat by lia. Qed.

(** X11.  A round count of zero or less is not rejected.  No round is held
    and no speech is asked for; the log is empty; and the evaluator and the
    advisor are still asked, the evaluator about a debate without content. *)
Theorem run_debate_without_rounds E idea n_round tr0 log evaluation
    research_log advice tr :
  (n_round <= 0)%Z ->
  run_debate E idea n_round tr0
    = (Ok (log, evaluation, research_log, advice), tr) ->
  log = []
  ∧ aask_count SpeakAloud tr = aask_count SpeakAloud tr0
  ∧ ∃ before,
      tr = before ++ [Aask EvaluateDebate (EvaluateDebate_prompt idea "");
                      Aask ProvideAdvice (ProvideAdvice_prompt idea evaluation)]
      ∧ aask E before EvaluateDebate (EvaluateDebate_prompt idea "")
        = Some evaluation.
Proof.
  intros Hn H. unfold run_debate, debate_rounds in H.
  rewrite (range_nonpositive n_round Hn) in H. cbn [for_each] in H.
  apply bind_inv_Ok in H as ([[[School Student] Parent] rlog] & tr1 & Hresearch & H).
  apply bind_inv_Ok in H as (s & tr2 & Hret & H).
  injection Hret as <- <-.
  apply bind_inv_Ok in H as (evaluation' & tr3 & Heval & H).
  apply bind_inv_Ok in H as (advice' & tr4 & Hadvice & H).
  injection H as <- -> -> -> ->.
  apply evaluate_inv in Heval as [Heval ->].
  apply advise_inv in Hadvice as [Hadvice ->].
  simpl in Heval. split_and!.
  - reflexivity.
  - rewrite !aask_count_app.
    rewrite (research_phase_counts _ _ _ _ _ _ _ _ SpeakAloud ltac:(done) Hresearch).
    change (aask_count SpeakAloud [Aask EvaluateDebate _]) with 0%nat.
    change (aask_count SpeakAloud [Aask ProvideAdvice _]) with 0%nat. lia.
  - exists tr1. by rewrite <- app_assoc.
Qed.

Lemma run_debate_without_rounds_witness :
  ∃ research_log tr,
    run_debate scripted smartphones (-2) []
    = (Ok ([], "evaluation", research_log, "advice"), tr).
Proof.
  destruct (run_debate scripted smartphones (-2) [])
    as [[[[[log evaluation] research_log] advice] | e] tr] eqn:Hrun;
    [| vm_compute in Hrun; discriminate].
  exists research_log, tr.
  assert (Hn : (-2 <= 0)%Z) by lia.
  destruct (run_debate_without_rounds scripted smartphones (-2) [] log evaluation
              research_log advice tr Hn Hrun) as (-> & _).
  vm_compute in Hrun. by injection Hrun as <- <- <- <-.
Defined.

(** X12.  A failing evaluator ends the session after the debate.  When the
    research phase and all rounds have succeeded and the language model
    raises on the evaluator's question, the session raises that exception,
    in [main.py] as in [streamlit_debate.py]; the question is the last call
    made, and the advisor is not asked. *)
Theorem evaluator_failure_ends_session E src idea investment n_round tr0
    School Student Parent research_log tr1 s tr :
  research_phase E idea School0 Student0 Parent0 tr0
    = (Ok (School, Student, Parent, research_log), tr1) ->
  debate_rounds E src n_round (initial_session idea School Student Parent) tr1
    = (Ok s, tr) ->
  aask E tr EvaluateDebate
       (EvaluateDebate_prompt idea
          (join (nl +:+ nl)
             (map (λ m, sent_from m +:+ ": " +:+ content m) (all_messages s))))
    = None ->
  let tr' := tr ++ [Aask EvaluateDebate
                      (EvaluateDebate_prompt idea
                         (join (nl +:+ nl)
                            (map (λ m, sent_from m +:+ ": " +:+ content m)
                                 (all_messages s))))] in
  match src with
  | main_py =>
      debate E idea investment n_round tr0 = (Raise (ActionError EvaluateDebate), tr')
  | streamlit_debate_py =>
      run_debate E idea n_round tr0 = (Raise (ActionError EvaluateDebate), tr')
  end
  ∧ aask_count ProvideAdvice tr' = aask_count ProvideAdvice tr0.
Proof.
  intros Hresearch Hrounds Hfail tr'.
  assert (Heval : evaluate E idea (all_messages s) tr
                  = (Raise (ActionError EvaluateDebate), tr')).
  { unfold evaluate, EvaluateDebate_run, _aask. rewrite call_bind. by rewrite Hfail. }
  split.
  - destruct src.
    + unfold debate. rewrite (bind_Ok _ _ _ _ _ Hresearch), (bind_Ok _ _ _ _ _ Hrounds).
      by apply bind_Raise.
    + unfold run_debate.
      rewrite (bind_Ok _ _ _ _ _ Hresearch), (bind_Ok _ _ _ _ _ Hrounds).
      by apply bind_Raise.
  - destruct (initial_session_scheduled _ _ _ _ _ _ _ _ Hresearch) as (Hs0 & _).
    destruct (rounds_spec E src _ _ _ _ _ Hs0 Hrounds)
      as (_ & prompts & _ & _ & _ & Htr & _).
    subst tr' tr. rewrite !aask_count_app, aask_count_speeches.
    rewrite (research_phase_counts _ _ _ _ _ _ _ _ ProvideAdvice ltac:(done) Hresearch).
    rewrite bool_decide_eq_false_2 by done.
    change (aask_count ProvideAdvice [Aask EvaluateDebate _]) with 0%nat. lia.
Qed.

Lemma evaluator_failure_ends_session_witness :
  ∃ tr, run_debate evaluator_fails smartphones 3 []
          = (Raise (ActionError EvaluateDebate), tr)
        ∧ aask_count ProvideAdvice tr = 0%nat.
Proof.
  destruct (research_phase evaluator_fails smartphones School0 Student0 Parent0 [])
    as [[[[[School Student] Parent] research_log] | e] tr1] eqn:Hresearch;
    [| vm_compute in Hresearch; discriminate].
  destruct (debate_rounds evaluator_fails streamlit_debate_py 3
              (initial_session smartphones School Student Parent) tr1)
    as [[s | e] tr] eqn:Hrounds.
  - assert (Hfail : aask evaluator_fails tr EvaluateDebate
                      (EvaluateDebate_prompt smartphones
                         (join (nl +:+ nl)
                            (map (λ m, sent_from m +:+ ": " +:+ content m)
                                 (all_messages s)))) = None) by reflexivity.
    destruct (evaluator_failure_ends_session evaluator_fails streamlit_debate_py
                smartphones 3.0%float 3 [] School Student Parent research_log
                tr1 s tr Hresearch Hrounds Hfail) as (Hrun & Hadvice).
    eexists. split; [exact Hrun | exact Hadvice].
  - vm_compute in Hresearch. injection Hresearch as <- <- <- _ <-.
    vm_compute in Hrounds. discriminate.
Defined.

(** X13.  A failing advisor loses the finished debate.  When everything up
    to and including the evaluation has succeeded and the language model
    raises on the advisor's question, [run_debate] raises: the log, the
    evaluation and the research log it has built are not returned. *)
Theorem advisor_failure_loses_the_debate E idea n_round tr0 School Student
    Parent research_log tr1 s tr evaluation tr2 :
  research_phase E idea School0 Student0 Parent0 tr0
    = (Ok (School, Student, Parent, research_log), tr1) ->
  debate_rounds E streamlit_debate_py n_round
      (initial_session idea School Student Parent) tr1
    = (Ok s, tr) ->
  evaluate E idea (all_messages s) tr = (Ok evaluation, tr2) ->
  aask E tr2 ProvideAdvice (ProvideAdvice_prompt idea evaluation) = None ->
  run_debate E idea n_round tr0
  = (Raise (ActionError ProvideAdvice),
     tr2 ++ [Aask ProvideAdvice (ProvideAdvice_prompt idea evaluation)]).
Proof.
  intros Hresearch Hrounds Heval Hfail. unfold run_debate.
  rewrite (bind_Ok _ _ _ _ _ Hresearch), (bind_Ok _ _ _ _ _ Hrounds),
    (bind_Ok _ _ _ _ _ Heval).
  apply bind_Raise. unfold advise, ProvideAdvice_run, _aask.
  rewrite call_bind. by rewrite Hfail.
Qed.

Lemma advisor_failure_loses_the_debate_witness :
  ∃ tr, run_debate advisor_fails smartphones 3 []
        = (Raise (ActionError ProvideAdvice), tr).
Proof.
  destruct (research_phase advisor_fails smartphones School0 Student0 Parent0 [])
    as [[[[[School Student] Parent] research_log] | e] tr1] eqn:Hresearch;
    [| vm_compute in Hresearch; discriminate].
  destruct (debate_rounds advisor_fails streamlit_debate_py 3
              (initial_session smartphones School Student Parent) tr1)
    as [[s | e] tr] eqn:Hrounds.
  - destruct (evaluate advisor_fails smartphones (all_messages s) tr)
      as [[evaluation | e] tr2] eqn:Heval.
    + assert (Hfail : aask advisor_fails tr2 ProvideAdvice
                        (ProvideAdvice_prompt smartphones evaluation) = None)
        by reflexivity.
      eexists.
      exact (advisor_failure_loses_the_debate advisor_fails smartphones 3 []
               School Student Parent research_log tr1 s tr evaluation tr2
               Hresearch Hrounds Heval Hfail).
    + vm_compute in Hresearch. injection Hresearch as <- <- <- _ <-.
      vm_compute in Hrounds. injection Hrounds as <- <-.
      vm_compute in Heval. discriminate.
  - vm_compute in Hresearch. injection Hresearch as <- <- <- _ <-.
    vm_compute in Hrounds. discriminate.
Defined.

(** ** A message that is not for the speaker *)

(** X16.  A speaker with an empty buffer that is handed a message not
    addressed to it does not speak: [Role.run] comes back with [None] and the
    language model is not asked.  The round loop does not expect that: its
    next statement reads [response.content], and the round ends the session
    with an [AttributeError], nothing having been stored or logged. *)
Theorem unaddressed_message_is_not_answered E src s round_num tr :
  msg_buffer (rc (current_speaker s)) = [] ->
  name (current_speaker s) ∉ send_to (msg s) ->
  (∃ d', run E src (current_speaker s) (msg s) tr = (Ok (None, d'), tr)
         ∧ news (rc d') = []
         ∧ memory (rc d') = memory (rc (current_speaker s)) ++ [msg s])
  ∧ round_body E src s round_num tr = (Raise AttributeError, tr).
Proof.
  intros Hbuf Hnot.
  assert (Hkept : news (rc (observed (current_speaker s) (msg s))) = []).
  { unfold observed, _observe, Role_observe, put_message. simpl. rewrite Hbuf. simpl.
    rewrite filter_cons, filter_nil.
    destruct (decide _); [| reflexivity].
    rewrite filter_cons, filter_nil.
    destruct (decide (admits _ _)) as [Hadmits |]; [| reflexivity].
    by apply admits_iff_elem_of in Hadmits. }
  assert (Hrun : run E src (current_speaker s) (msg s) tr
                 = (Ok (None, observed (current_speaker s) (msg s)), tr)).
  { unfold run. unfold observed in *.
    destruct (_observe (put_message (current_speaker s) (msg s))) as [n d1] eqn:Hobs.
    assert (n = Z.of_nat (length (news (rc d1)))) as ->.
    { unfold _observe in Hobs. by injection Hobs as <- <-. }
    simpl in Hkept. by rewrite Hkept. }
  split.
  - exists (observed (current_speaker s) (msg s)). split; [exact Hrun |].
    split; [exact Hkept |]. by rewrite observed_memory, Hbuf.
  - unfold round_body. by rewrite (bind_Ok _ _ _ _ _ Hrun).
Qed.

(** The seed message, handed to John instead of the Principal. *)
Lemma unaddressed_message_is_not_answered_witness :
  round_body scripted main_py
    (initial_session smartphones Student0 School0 Parent0) 0 []
  = (Raise AttributeError, []).
Proof.
  assert (Hbuf : msg_buffer (rc (current_speaker
                   (initial_session smartphones Student0 School0 Parent0))) = [])
    by reflexivity.
  assert (Hnot : name (current_speaker
                   (initial_session smartphones Student0 School0 Parent0))
                 ∉ send_to (msg (initial_session smartphones Student0 School0 Parent0)))
    by (by vm_compute).
  exact (proj2 (unaddressed_message_is_not_answered scripted main_py
                  (initial_session smartphones Student0 School0 Parent0) 0 []
                  Hbuf Hnot)).
Defined.
